(** * ConvF Music (convert.py): a shallow embedding and its verified properties

    The converter is a thin orchestration layer around an external encoder.
    Everything the script decides itself is embedded below: the codec policy
    table, the resolution of the target format and of the output path, the
    assembly of the encoder command, the classification of the encoder's
    result, the batch loop with its counters, and the exit code of [main].

    Conventions.
    - A Python [str] is a [string]; a character is a code point below 256.
    - [Optional[str]] is [option string]; Python truthiness of such a value
      ([if format:]) is "present and non-empty".
    - The file system and the encoder are an interface ([OS]) over an abstract
      world that each encoder run may change.
    - Console output is a trace of events; colour codes are left out.
    - [str(n)] of an int is [pretty n]. CPython computes [str] for every int
      of at most 4300 digits and raises [ValueError] beyond; the statements
      that enumerate every outcome of [convert_file] carry [str_defined] for
      the quality, and the command line admits only 0..10. *)

From Stdlib Require Import ZArith Ascii PrimFloat SpecFloat FloatOps Uint63.
From stdpp Require Import gmap strings list fin_maps pretty.

Local Open Scope Z_scope.


(** ** Python string primitives *)

Module PyStr.

Definition chr (n : nat) : ascii := Ascii.ascii_of_nat n.
Definition ord (c : ascii) : nat := Ascii.nat_of_ascii c.

(** [str.lower] on one character: A-Z, and the upper-case letters of the
    Latin-1 block (U+00C0..U+00DE without the multiplication sign). *)
Definition lower_char (c : ascii) : ascii :=
  let n := ord c in
  if ((65 <=? n) && (n <=? 90))%nat then chr (n + 32)
  else if ((192 <=? n) && (n <=? 222) && negb (n =? 215))%nat then chr (n + 32)
  else c.

Fixpoint lower (s : string) : string :=
  match s with
  | EmptyString => EmptyString
  | String c s' => String (lower_char c) (lower s')
  end.

(** [s[n:]] and [s[:n]] for a non-negative [n]. *)
Fixpoint sdrop (n : nat) (s : string) : string :=
  match n, s with
  | O, _ => s
  | S n', String _ s' => sdrop n' s'
  | S _, EmptyString => EmptyString
  end.

Fixpoint stake (n : nat) (s : string) : string :=
  match n, s with
  | S n', String c s' => String c (stake n' s')
  | _, _ => EmptyString
  end.

(** [s[i:j]] for non-negative [i], [j]. *)
Definition slice (i j : nat) (s : string) : string := sdrop i (stake j s).

(** [s.endswith(suffix)] *)
Definition endswith (s suffix : string) : bool :=
  (String.length suffix <=? String.length s)%nat
  && String.eqb (sdrop (String.length s - String.length suffix) s) suffix.

(** [s.startswith(prefix)] *)
Definition startswith (s pre : string) : bool :=
  String.eqb (stake (String.length pre) s) pre.

(** [s.rfind(c)] for a one-character needle: the highest index, or -1. *)
Fixpoint rfind_from (c : ascii) (s : string) (i : Z) (found : Z) : Z :=
  match s with
  | EmptyString => found
  | String a s' => rfind_from c s' (i + 1) (if Ascii.eqb a c then i else found)
  end.

Definition rfind (c : ascii) (s : string) : Z := rfind_from c s 0 (-1).

(** [s.lstrip(c)] for a one-character set. *)
Fixpoint lstrip (c : ascii) (s : string) : string :=
  match s with
  | String a s' => if Ascii.eqb a c then lstrip c s' else s
  | EmptyString => EmptyString
  end.

(** Left-justify in a field of [w] characters, the format spec [:<w]. *)
Fixpoint spaces (n : nat) : string :=
  match n with
  | O => ""
  | S n' => String " "%char (spaces n')
  end.

Definition ljust (w : nat) (s : string) : string :=
  s +:+ spaces (w - String.length s).

(** Line boundaries of [str.splitlines] below code point 256. *)
Definition is_linebreak (c : ascii) : bool :=
  let n := ord c in
  ((n =? 10) || (n =? 11) || (n =? 12) || (n =? 13)
   || (n =? 28) || (n =? 29) || (n =? 30) || (n =? 133))%nat.

(** [s.splitlines()]: [cur] is the line being read, [open] tells whether
    a line has been started since the last boundary. A carriage return
    followed by a line feed is one boundary. *)
Fixpoint splitlines_go (s : string) (cur : string) (open : bool) : list string :=
  match s with
  | EmptyString => if open then [cur] else []
  | String c s' =>
      if is_linebreak c then
        match s' with
        | String c2 s'' =>
            if ((ord c =? 13) && (ord c2 =? 10))%nat
            then cur :: splitlines_go s'' "" false
            else cur :: splitlines_go s' "" false
        | EmptyString => [cur]
        end
      else splitlines_go s' (cur +:+ String c "") true
  end.

Definition splitlines (s : string) : list string := splitlines_go s "" false.

(** The slice [l[-n:]] of a list, for a positive [n]. *)
Definition last_n {A} (n : nat) (l : list A) : list A :=
  list.drop (length l - n) l.

End PyStr.

(** ** os.path (POSIX flavour: separator "/", extension separator ".") *)

Module OsPath.
Import PyStr.

(** A leading run of dots belongs to the name, not to the extension:
    the scan of [genericpath._splitext] over [p[sepIndex+1:dotIndex]]. *)
Fixpoint has_non_dot (s : string) : bool :=
  match s with
  | EmptyString => false
  | String a s' => if Ascii.eqb a "."%char then has_non_dot s' else true
  end.

Definition splitext (p : string) : string * string :=
  let sepIndex := rfind "/"%char p in
  let dotIndex := rfind "."%char p in
  if (sepIndex <? dotIndex)
     && has_non_dot (slice (Z.to_nat (sepIndex + 1)) (Z.to_nat dotIndex) p)
  then (stake (Z.to_nat dotIndex) p, sdrop (Z.to_nat dotIndex) p)
  else (p, "").

(** [os.path.join(a, b)] *)
Definition join (a b : string) : string :=
  if startswith b "/" then b
  else if String.eqb a "" || endswith a "/" then a +:+ b
  else a +:+ "/" +:+ b.

(** [os.path.basename(p)] *)
Definition basename (p : string) : string :=
  sdrop (Z.to_nat (rfind "/"%char p + 1)) p.

End OsPath.

(** ** Exceptions and results *)

(** The exception classes that can occur. Every class but
    [KeyboardInterrupt] derives from [Exception]; [OtherException] stands
    for any further subclass of [Exception] (for example [PermissionError]). *)
Inductive exn_kind :=
| FileNotFoundError
| ZeroDivisionError
| OverflowError
| ValueError
| KeyboardInterrupt
| OtherException.

Record exn := Exn { kind : exn_kind; message : string }.

(** [isinstance(e, Exception)] *)
Definition is_Exception (e : exn) : bool :=
  match kind e with KeyboardInterrupt => false | _ => true end.

(** [isinstance(e, FileNotFoundError)] *)
Definition is_FileNotFoundError (e : exn) : bool :=
  match kind e with FileNotFoundError => true | _ => false end.

Inductive result (A : Type) :=
| Ret (a : A)
| Raise (e : exn).
Arguments Ret {A} a.
Arguments Raise {A} e.

#[global] Instance result_ret : MRet result := @Ret.
#[global] Instance result_bind : MBind result := λ A B f r,
  match r with
  | Ret a => f a
  | Raise e => Raise e
  end.

(** ** Numbers: true division and [int()] on floats *)

Module PyNum.

(** [float(z)] for a count [z]: exact for 0 <= z < 2^53, which covers the
    numbers of files and loop indices that reach it. *)
Definition float_of_int (z : Z) : float := PrimFloat.of_uint63 (Uint63.of_Z z).

(** [a / b] on ints: binary64 division, [ZeroDivisionError] on [b = 0]. *)
Definition truediv (a b : Z) : result float :=
  if b =? 0 then Raise (Exn ZeroDivisionError "division by zero")
  else Ret (PrimFloat.div (float_of_int a) (float_of_int b)).

(** [int(x)]: truncation toward zero; infinities and NaN raise. *)
Definition int_of_float (x : float) : result Z :=
  match Prim2SF x with
  | S754_zero _ => Ret 0
  | S754_finite s m e =>
      let mag := if 0 <=? e then Z.pos m * 2 ^ e else Z.pos m / 2 ^ (- e) in
      Ret (if s then - mag else mag)
  | S754_infinity _ => Raise (Exn OverflowError "cannot convert float infinity to integer")
  | S754_nan => Raise (Exn ValueError "cannot convert float NaN to integer")
  end.

(** [int((a / b) * 100)] *)
Definition percent_of (a b : Z) : result Z :=
  q ← truediv a b;
  int_of_float (PrimFloat.mul q (float_of_int 100)).

End PyNum.

(** ** Console events *)

Inductive level := INFO | WARN | ERROR | SUCCESS.

Inductive event :=
| Banner                                  (* print_banner() *)
| Help                                    (* parser.print_help() *)
| Log (l : level) (msg : string)          (* print_info / print_warn / print_error / print_success *)
| Print (text : string)                   (* print(text) *)
| PrintNoNl (text : string)               (* print(text, end="") *)
| Spawn (cmd : list string)               (* subprocess.run(cmd, capture_output=True, text=True) *)
| SummaryCounts (total converted skipped failed : Z)  (* the four counter rows of the box *)
| SummaryRate (percent : Z).              (* the success-rate row and the box bottom *)

(** ** The operating-system interface *)

(** What [subprocess.run] returns when the child could be started. *)
Record completed := Completed { returncode : Z; stdout : string; stderr : string }.

(** [W] is the state of the outside world (files on disk, installed tools).
    Running a command may change it; the path tests and the listing only
    read it. [os.path.isfile] and [os.path.isdir] never raise. *)
Class OS (W : Type) := {
  os_path_isfile : W → string → bool;
  os_path_isdir : W → string → bool;
  os_listdir : W → string → result (list string);
  subprocess_run : W → list string → result completed * W
}.

(** The commands issued in a trace, in order. *)
Fixpoint spawned (t : list event) : list (list string) :=
  match t with
  | [] => []
  | Spawn cmd :: t' => cmd :: spawned t'
  | _ :: t' => spawned t'
  end.

(** ** Constants and the codec policy table (convert.py:18-25, 61-76) *)

Definition COMMON_AUDIO_FORMATS : list string :=
  [ ".mp3"; ".aac"; ".ogg"; ".opus"; ".m4a"; ".wma"; ".vorbis";
    ".flac"; ".wav"; ".aiff"; ".alac"; ".ape"; ".wv";
    ".ac3"; ".amr"; ".au"; ".mid"; ".mka"; ".ra"; ".shn" ].

(** The literal list of line 159. *)
Definition NON_AUDIO_EXTENSIONS : list string :=
  [ ".txt"; ".jpg"; ".png"; ".pdf"; ".doc"; ".docx"; ".exe"; ".zip" ].

(** The entries of the dict literal, in source order. *)
Definition format_codec_entries : list (string * list string) :=
  [ (".mp3", ["-c:a"; "libmp3lame"; "-q:a"; "4"]);
    (".ogg", ["-c:a"; "libvorbis"; "-q:a"; "5"]);
    (".opus", ["-c:a"; "libopus"; "-b:a"; "128k"]);
    (".m4a", ["-c:a"; "aac"; "-b:a"; "192k"]);
    (".flac", ["-c:a"; "flac"]);
    (".wav", ["-c:a"; "pcm_s16le"]);
    (".aac", ["-c:a"; "aac"; "-b:a"; "192k"]);
    (".wma", ["-c:a"; "wmav2"; "-b:a"; "192k"]);
    (".alac", ["-c:a"; "alac"]) ].

Definition format_codec_map : gmap string (list string) :=
  list_to_map format_codec_entries.

(** [format_codec_map.get(output_format.lower(), ["-c:a", "copy"])].
    The dict and its lists are built anew by every call, so the list a
    caller updates in place is shared with nothing. *)
Definition get_output_codec (output_format : string) : list string :=
  default ["-c:a"; "copy"] (format_codec_map !! PyStr.lower output_format).

(** [l.index(x)]: the first position of [x]; [None] stands for the
    [ValueError] of an absent element. *)
Fixpoint list_index (x : string) (l : list string) : option nat :=
  match l with
  | [] => None
  | y :: l' => if String.eqb y x then Some O else S <$> list_index x l'
  end.

Section Program.
Context {W : Type} `{!OS W}.
Import PyStr OsPath PyNum.

(** *** Computations: world passing, an output trace, exceptions *)

Definition M (A : Type) : Type := W → list event * W * result A.

#[local] Instance M_ret : MRet M := λ A a w, ([], w, Ret a).
#[local] Instance M_bind : MBind M := λ A B f m w,
  match m w with
  | (t1, w1, Ret a) => let '(t2, w2, r) := f a w1 in (t1 ++ t2, w2, r)
  | (t1, w1, Raise e) => (t1, w1, Raise e)
  end.

Definition emit (e : event) : M unit := λ w, ([e], w, Ret tt).
Definition lift {A} (r : result A) : M A := λ w, ([], w, r).
Definition read {A} (f : W → A) : M A := λ w, ([], w, Ret (f w)).

(** [try: body except <catches> as e: handler e] *)
Definition try_except {A} (body : M A) (catches : exn → bool) (handler : exn → M A) : M A :=
  λ w,
    match body w with
    | (t1, w1, Raise e) =>
        if catches e
        then let '(t2, w2, r) := handler e w1 in (t1 ++ t2, w2, r)
        else (t1, w1, Raise e)
    | other => other
    end.

Definition run (cmd : list string) : M completed :=
  λ w, let '(r, w') := subprocess_run w cmd in ([Spawn cmd], w', r).

Definition print_info (m : string) : M unit := emit (Log INFO m).
Definition print_warn (m : string) : M unit := emit (Log WARN m).
Definition print_error (m : string) : M unit := emit (Log ERROR m).
Definition print_success (m : string) : M unit := emit (Log SUCCESS m).

Fixpoint emit_all (es : list event) : M unit :=
  match es with
  | [] => mret tt
  | e :: es' => emit e;; emit_all es'
  end.

(** *** get_ffmpeg_formats (convert.py:49-59) *)

(** [None] is Python's [None], returned when starting the command raised
    an [Exception]. The exit status of the command is not looked at. *)
Definition get_ffmpeg_formats : M (option string) :=
  try_except
    (result ← run ["ffmpeg"; "-formats"];
     mret (Some (stdout result)))
    is_Exception
    (λ _, mret None).

(** *** convert_file (convert.py:78-142) *)

(** The arrow of the "Converting" line is U+2192 in the source. *)
Definition arrow : string := " -> ".

Definition cr : string := String (chr 13) "".
Definition nl : string := String (chr 10) "".

(** The text that blanks the progress line. *)
Definition clear_line : string := cr +:+ spaces 50 +:+ cr.

(** Lines 84-94. [None] is the early return of lines 89-91: an output
    name without extension and no format. *)
Definition resolve_output_format (format output_file : option string) : option string :=
  match format with
  | Some (String _ _ as fmt) => Some ("." +:+ lower fmt)
  | _ =>
      match output_file with
      | Some (String _ _ as out) =>
          match lower (splitext out).2 with
          | EmptyString => None
          | ext => Some ext
          end
      | _ => Some ".ogg"
      end
  end.

(** Lines 96-98. *)
Definition resolve_output_file (input_file : string) (output_file : option string)
    (output_format : string) : string :=
  match output_file with
  | None => (splitext input_file).1 +:+ output_format
  | Some out => out
  end.

(** Lines 102-109: the codec arguments, with the value after "-q:a"
    overwritten by [str(quality)]. [pretty q] is [str(q)] for every [q]
    that [str] accepts (see [str_defined]). *)
Definition codec_settings_for (output_format : string) (quality : option Z) : list string :=
  let codec_settings := get_output_codec output_format in
  match quality with
  | Some q =>
      if bool_decide ("-q:a" ∈ codec_settings) then
        match list_index "-q:a" codec_settings with
        | Some q_index =>
            if (q_index + 1 <? length codec_settings)%nat
            then <[(q_index + 1)%nat := pretty q]> codec_settings
            else codec_settings
        | None => codec_settings
        end
      else codec_settings
  | None => codec_settings
  end.

(** Lines 111-114. *)
Definition ffmpeg_cmd (input_file : string) (codec_settings : list string)
    (output_file : string) : list string :=
  ["ffmpeg"; "-i"; input_file] ++ codec_settings ++ [output_file].

(** Lines 128-138: what is reported for a finished encoder run. *)
Definition report_completed (input_file output_file : string) (result : completed) : M bool :=
  if negb (returncode result =? 0) then
    emit (PrintNoNl clear_line);;
    print_error ("FFmpeg conversion failed for '" +:+ input_file +:+ "'");;
    print_warn "FFmpeg error details:";;
    emit_all ((λ line, Print ("  " +:+ line)) <$> last_n 5 (splitlines (stderr result)));;
    mret false
  else
    emit (PrintNoNl clear_line);;
    print_success ("Successfully converted to " +:+ basename output_file);;
    mret true.

Definition convert_file (input_file : string) (output_file : option string)
    (quality : option Z) (format : option string) : M bool :=
  is_file ← read (λ w, os_path_isfile w input_file);
  if negb is_file then
    print_error ("The file '" +:+ input_file +:+ "' does not exist.");;
    mret false
  else
    match resolve_output_format format output_file with
    | None =>
        print_error "No output format specified in output filename.";;
        mret false
    | Some output_format =>
        let output_file := resolve_output_file input_file output_file output_format in
        print_info ("Converting: " +:+ basename input_file +:+ arrow +:+ basename output_file);;
        let codec_settings := codec_settings_for output_format quality in
        let cmd := ffmpeg_cmd input_file codec_settings output_file in
        try_except
          (emit (PrintNoNl "[PROCESSING] ");;
           result ← run cmd;
           report_completed input_file output_file result)
          is_Exception
          (λ e,
             emit (PrintNoNl clear_line);;
             print_error ("An error occurred: " +:+ message e);;
             mret false)
    end.

(** *** convert_folder (convert.py:144-206) *)

Record counters := Counters { success_count : Z; skip_count : Z; fail_count : Z }.

(** Lines 158-159: the test that makes a directory entry a candidate. *)
Definition likely_audio (filename : string) : bool :=
  let file_ext := lower (splitext filename).2 in
  negb (String.eqb file_ext "")
  && (bool_decide (file_ext ∈ COMMON_AUDIO_FORMATS)
      || negb (bool_decide (file_ext ∈ NON_AUDIO_EXTENSIONS))).

(** Line 178. *)
Definition already_target (output_format filename : string) : bool :=
  endswith (lower filename) output_format.

Definition progress_tag (i total_files : Z) : string :=
  "[" +:+ pretty (i + 1) +:+ "/" +:+ pretty total_files +:+ "]".

(** Lines 175-192: one iteration of the loop, for the entry at index [i]. *)
Definition convert_folder_step (folder_path : string) (quality : Z) (format : string)
    (output_format : string) (total_files : Z)
    (i : Z) (filename : string) (c : counters) : M counters :=
  let input_file := join folder_path filename in
  if already_target output_format filename then
    print_info (progress_tag i total_files +:+ " Skipping: " +:+ filename
                +:+ " (already in target format)");;
    mret (Counters (success_count c) (skip_count c + 1) (fail_count c))
  else
    let output_file := join folder_path ((splitext filename).1 +:+ output_format) in
    percent ← lift (percent_of i total_files);
    print_info (progress_tag i total_files +:+ " (" +:+ pretty percent +:+ "%) Processing: "
                +:+ filename);;
    ok ← convert_file input_file (Some output_file) (Some quality) (Some format);
    if ok : bool
    then mret (Counters (success_count c + 1) (skip_count c) (fail_count c))
    else mret (Counters (success_count c) (skip_count c) (fail_count c + 1)).

(** Lines 174-192: [for i, filename in enumerate(audio_files)], from
    index [i] on. *)
Fixpoint convert_folder_loop (folder_path : string) (quality : Z) (format : string)
    (output_format : string) (total_files : Z)
    (i : Z) (audio_files : list string) (c : counters) : M counters :=
  match audio_files with
  | [] => mret c
  | filename :: rest =>
      c' ← convert_folder_step folder_path quality format output_format total_files
             i filename c;
      convert_folder_loop folder_path quality format output_format total_files
        (i + 1) rest c'
  end.

(** Line 203: [int((success_count/(total_files-skip_count))*100)
    if (total_files-skip_count) > 0 else 0]. *)
Definition success_rate (success_count total_files skip_count : Z) : result Z :=
  if 0 <? total_files - skip_count
  then percent_of success_count (total_files - skip_count)
  else Ret 0.

(** Lines 194-204. *)
Definition print_summary (total_files : Z) (c : counters) : M unit :=
  emit (Print "");;
  emit (SummaryCounts total_files (success_count c) (skip_count c) (fail_count c));;
  rate ← lift (success_rate (success_count c) total_files (skip_count c));
  emit (SummaryRate rate).

Definition convert_folder (folder_path : string) (quality : Z) (format : string) : M bool :=
  is_dir ← read (λ w, os_path_isdir w folder_path);
  if negb is_dir then
    print_error ("The folder '" +:+ folder_path +:+ "' does not exist.");;
    mret false
  else
    let output_format := "." +:+ lower format in
    all_files ← (λ w, ([], w, os_listdir w folder_path));
    let audio_files := filter (λ filename, likely_audio filename = true) all_files in
    let total_files := Z.of_nat (length audio_files) in
    if total_files =? 0 then
      print_warn ("No potential audio files found in '" +:+ folder_path +:+ "'.");;
      mret false
    else
      print_info ("Found " +:+ pretty total_files +:+ " potential audio files to convert.");;
      c ← convert_folder_loop folder_path quality format output_format total_files
            0 audio_files (Counters 0 0 0);
      print_summary total_files c;;
      mret (0 <? success_count c).

(** *** list_supported_formats (convert.py:208-223) *)

(** [formats[i:i+num_cols] for i in range(0, len(formats), num_cols)] *)
Fixpoint rows_of (fuel : nat) (num_cols : nat) (formats : list string) : list (list string) :=
  match fuel, formats with
  | S fuel', _ :: _ => take num_cols formats :: rows_of fuel' num_cols (drop num_cols formats)
  | _, _ => []
  end.

Definition list_supported_formats : M unit :=
  emit (Print (nl +:+ "Commonly Supported Audio Formats:"));;
  let formats := lstrip "." <$> COMMON_AUDIO_FORMATS in
  let col_width := 8%nat in
  let num_cols := 5%nat in
  emit_all ((λ row, Print ("  " +:+ String.concat "" (ljust col_width <$> row)))
              <$> rows_of (length formats) num_cols formats);;
  emit (Print (nl +:+ "Note: Actual support depends on your FFmpeg installation."));;
  emit (Print ("For a complete list, run: ffmpeg -formats" +:+ nl)).

(** *** main (convert.py:225-306) and the script entry (308-314) *)

(** The namespace returned by [parser.parse_args()]. The parser makes
    [file], [directory] and [list_formats] mutually exclusive, gives
    [format] the default "ogg" and [quality] the default 5, and admits
    only 0..10 for [quality]. *)
Record Args := {
  file : option string;
  directory : option string;
  list_formats : bool;
  output : option string;
  format : string;
  quality : Z
}.

(** Python truthiness of an [Optional[str]]. *)
Definition truthy (o : option string) : bool :=
  match o with
  | Some (String _ _) => true
  | _ => false
  end.

(** [argc] is [len(sys.argv)]. The probe of lines 273-279 returns whether
    the encoder could be started. *)
Definition main (argc : nat) (args : Args) : M Z :=
  emit Banner;;
  if (argc =? 1)%nat then
    emit Help;;
    mret 0
  else
    found ← try_except
              (run ["ffmpeg"; "-version"];; mret true)
              is_FileNotFoundError
              (λ _,
                 print_error "FFmpeg is not installed or not in the system PATH.";;
                 print_info "Please install FFmpeg to use this converter: https://ffmpeg.org/download.html";;
                 mret false);
    if negb found then mret 1
    else if list_formats args then
      list_supported_formats;;
      mret 0
    else if negb (truthy (file args)) && negb (truthy (directory args)) then
      print_error "No input specified. Use -f/--file or -d/--directory to specify input.";;
      mret 1
    else
      success ←
        (match file args with
         | Some (String _ _ as input) =>
             let out :=
               match output args with
               | Some (String _ _ as o) =>
                   if String.eqb (splitext o).2 "" then Some (o +:+ "." +:+ format args) else Some o
               | other => other
               end in
             success ← convert_file input out (Some (quality args)) (Some (format args));
             emit (Print "");;
             (if success : bool
              then print_success "File conversion completed successfully!"
              else print_error "File conversion failed.");;
             mret success
         | _ => convert_folder (default "" (directory args)) (quality args) (format args)
         end);
      mret (if success : bool then 0 else 1).

(** [sys.exit(main())] under the handler for [KeyboardInterrupt]; any
    other exception that escapes [main] ends the interpreter with
    status 1. The result is the trace, the final world and the exit code. *)
Definition script (argc : nat) (args : Args) (w : W) : list event * W * Z :=
  match main argc args w with
  | (t, w', Ret code) => (t, w', code)
  | (t, w', Raise e) =>
      match kind e with
      | KeyboardInterrupt => (t ++ [Print nl; Log INFO "Operation cancelled by user."], w', 1)
      | _ => (t, w', 1)
      end
  end.

Definition exit_code (argc : nat) (args : Args) (w : W) : Z := (script argc args w).2.

End Program.

Arguments M W : clear implicits.

(** ** Vocabulary of the statements *)

(** The lines [convert_file] prints up to the start of the encoder
    (lines 100, 119, 121). *)
Definition announce (input_file out : string) (cmd : list string) : list event :=
  [ Log INFO ("Converting: " +:+ OsPath.basename input_file +:+ arrow +:+ OsPath.basename out);
    PrintNoNl "[PROCESSING] ";
    Spawn cmd ].

(** The command [convert_file] builds for a resolved target format
    (lines 96-114). *)
Definition command_for (input_file : string) (output_file : option string)
    (quality : option Z) (output_format : string) : list string :=
  ffmpeg_cmd input_file (codec_settings_for output_format quality)
    (resolve_output_file input_file output_file output_format).

(** The command a batch run builds for the directory entry [filename]
    (lines 175, 183, 189 with 96-114), for a non-empty [format]. *)
Definition batch_command (folder_path : string) (quality : Z) (format : string)
    (filename : string) : list string :=
  ffmpeg_cmd (OsPath.join folder_path filename)
    (codec_settings_for ("." +:+ PyStr.lower format) (Some quality))
    (OsPath.join folder_path ((OsPath.splitext filename).1 +:+ ("." +:+ PyStr.lower format))).

(** The candidates of a listing that are not in the target format yet. *)
Definition to_convert (format : string) (audio_files : list string) : list string :=
  filter (λ f, already_target ("." +:+ PyStr.lower format) f = false) audio_files.

(** The output name [main] hands to [convert_file] (lines 293-297):
    "." and the format are appended to a non-empty name without extension. *)
Definition front_end_output (args : Args) : option string :=
  match output args with
  | Some (String _ _ as o) =>
      if String.eqb (OsPath.splitext o).2 "" then Some (o +:+ "." +:+ format args) else Some o
  | other => other
  end.

(** The probe [main] runs before any action (line 275). *)
Definition probe_cmd : list string := ["ffmpeg"; "-version"].


(** What the list-formats action prints (lines 210-223). *)
Definition format_listing : list event :=
  [ Print (nl +:+ "Commonly Supported Audio Formats:");
    Print "  mp3     aac     ogg     opus    m4a     ";
    Print "  wma     vorbis  flac    wav     aiff    ";
    Print "  alac    ape     wv      ac3     amr     ";
    Print "  au      mid     mka     ra      shn     ";
    Print (nl +:+ "Note: Actual support depends on your FFmpeg installation.");
    Print ("For a complete list, run: ffmpeg -formats" +:+ nl) ].

(** The candidates of a listing: [audio_files] of lines 154-160. *)
Definition candidates (all_files : list string) : list string :=
  filter (λ filename, likely_audio filename = true) all_files.

(** ** A concrete world, for running the embedding on examples *)

Module Demo.

(** [encoder = None]: the encoder is not installed. [Some (rc, err)]:
    it is installed, and every conversion exits with status [rc] and
    the text [err] on its error stream. *)
Record world := World {
  regular_files : list string;
  directories : list (string * list string);
  encoder : option (Z * string)
}.

Definition demo_run (w : world) (cmd : list string) : result completed * world :=
  match encoder w with
  | None => (Raise (Exn FileNotFoundError "[Errno 2] No such file or directory: 'ffmpeg'"), w)
  | Some (rc, err) =>
      match cmd with
      | [_; "-version"] => (Ret (Completed 0 "ffmpeg version 6.0" ""), w)
      | _ =>
          if rc =? 0
          then (Ret (Completed 0 "" err),
                World (regular_files w ++ [List.last cmd ""]) (directories w) (encoder w))
          else (Ret (Completed rc "" err), w)
      end
  end.

#[global] Instance demo_os : OS world := {|
  os_path_isfile w p := bool_decide (p ∈ regular_files w);
  os_path_isdir w p := bool_decide (p ∈ (directories w).*1);
  os_listdir w p :=
    match list_to_map (M := gmap string (list string)) (directories w) !! p with
    | Some names => Ret names
    | None => Raise (Exn FileNotFoundError p)
    end;
  subprocess_run := demo_run
|}.

(** A directory "music" with three entries; the encoder works. *)
Definition music : world :=
  World ["music/a.wav"; "music/b.mp3"; "music/c.txt"]
        [("music", ["a.wav"; "b.mp3"; "c.txt"])]
        (Some (0, "")).

(** The same files, no encoder installed. *)
Definition no_encoder : world :=
  World (regular_files music) (directories music) None.

Definition seven_lines : string :=
  "l1" +:+ nl +:+ "l2" +:+ nl +:+ "l3" +:+ nl +:+ "l4" +:+ nl
  +:+ "l5" +:+ nl +:+ "l6" +:+ nl +:+ "l7" +:+ nl.

(** The same files; every conversion fails with seven lines of diagnostics. *)
Definition failing_encoder : world :=
  World (regular_files music) (directories music) (Some (1, seven_lines)).

Definition args_list_formats : Args :=
  {| file := None; directory := None; list_formats := true;
     output := None; format := "ogg"; quality := 5 |}.

End Demo.

(** ** A second concrete world: the encoder follows a script *)

Module Scripted.

(** Each run of a command consumes the next entry of [outcomes], which is
    what [subprocess.run] then returns or raises; with no entry left the
    command cannot be started. A directory is listed as recorded, and the
    record may be an exception. *)
Record world := World {
  regular_files : list string;
  directories : list (string * result (list string));
  outcomes : list (result completed)
}.

Definition scripted_run (w : world) (cmd : list string) : result completed * world :=
  match outcomes w with
  | [] => (Raise (Exn FileNotFoundError "[Errno 2] No such file or directory: 'ffmpeg'"), w)
  | o :: rest => (o, World (regular_files w) (directories w) rest)
  end.

#[global] Instance scripted_os : OS world := {|
  os_path_isfile w p := bool_decide (p ∈ regular_files w);
  os_path_isdir w p := bool_decide (p ∈ (directories w).*1);
  os_listdir w p :=
    match list_to_map (M := gmap string (result (list string))) (directories w) !! p with
    | Some r => r
    | None => Raise (Exn FileNotFoundError p)
    end;
  subprocess_run := scripted_run
|}.

Definition ok : result completed := Ret (Completed 0 "" "").
Definition failed : result completed := Ret (Completed 1 "" "Conversion failed!").
Definition interrupted : result completed := Raise (Exn KeyboardInterrupt "").
Definition denied : result completed := Raise (Exn OtherException "[Errno 13] Permission denied: 'ffmpeg'").

(** Three audio files in "in", of which z.mp3 is an MP3 already, beside
    two entries that are no candidates; "done" holds only an MP3, "docs"
    no candidate at all, and "locked" cannot be listed. *)
Definition studio (outcomes : list (result completed)) : world :=
  World ["in/x.wav"; "in/y.flac"; "in/z.mp3"; "done/z.mp3"]
        [ ("in", Ret ["x.wav"; "y.flac"; "z.mp3"; "notes.txt"; "README"]);
          ("done", Ret ["z.mp3"]);
          ("docs", Ret ["notes.txt"; "README"]);
          ("locked", Raise (Exn OtherException "[Errno 13] Permission denied: 'locked'")) ]
        outcomes.

Definition args_file (input : string) (out : option string) : Args :=
  {| file := Some input; directory := None; list_formats := false;
     output := out; format := "ogg"; quality := 5 |}.

Definition args_directory (folder : string) (fmt : string) : Args :=
  {| file := None; directory := Some folder; list_formats := false;
     output := None; format := fmt; quality := 5 |}.

Definition args_nothing : Args :=
  {| file := Some ""; directory := None; list_formats := false;
     output := None; format := "ogg"; quality := 5 |}.

End Scripted.

(** * Properties *)

Arguments get_output_codec : simpl never.
Arguments PyStr.lower : simpl never.
Arguments OsPath.splitext : simpl never.
Arguments OsPath.join : simpl never.
Arguments OsPath.basename : simpl never.
Arguments PyStr.splitlines : simpl never.
Arguments PyStr.last_n : simpl never.
Arguments PyStr.endswith : simpl never.
Arguments PyNum.percent_of : simpl never.
Arguments String.append : simpl never.
Arguments clear_line : simpl never.
Arguments pretty : simpl never.

(** Unfolds the plumbing of [M] so that a computation applied to a world
    becomes a term over the oracles of [OS]. *)
Ltac step_M :=
  unfold print_info, print_warn, print_error, print_success in *;
  unfold mbind, mret, M_bind, M_ret, emit, lift, read, run, try_except in *;
  cbn beta iota zeta delta [fst snd app negb] in *.

(** ** Facts about the string primitives *)

Section Strings.
Import PyStr.

Lemma lower_char_idemp c : lower_char (lower_char c) = lower_char c.
Proof. destruct c as [[] [] [] [] [] [] [] []]; reflexivity. Qed.

Lemma lower_idemp s : lower (lower s) = lower s.
Proof.
  induction s as [|c s IH]; [reflexivity|].
  change (String (lower_char (lower_char c)) (lower (lower s))
          = String (lower_char c) (lower s)).
  by rewrite lower_char_idemp, IH.
Qed.

Lemma lower_app s t : lower (s +:+ t) = lower s +:+ lower t.
Proof.
  induction s as [|c s IH]; [reflexivity|].
  change (String (lower_char c) (lower (s +:+ t))
          = String (lower_char c) (lower s +:+ lower t)).
  by rewrite IH.
Qed.

Lemma lower_length s : String.length (lower s) = String.length s.
Proof.
  induction s as [|c s IH]; [reflexivity|].
  change (S (String.length (lower s)) = S (String.length s)). by rewrite IH.
Qed.

Lemma app_length s t :
  String.length (s +:+ t) = (String.length s + String.length t)%nat.
Proof.
  induction s as [|c s IH]; [reflexivity|].
  change (S (String.length (s +:+ t)) = S (String.length s + String.length t)).
  by rewrite IH.
Qed.

Lemma sdrop_app s t : sdrop (String.length s) (s +:+ t) = t.
Proof. induction s as [|c s IH]; [by destruct t | exact IH]. Qed.

Lemma endswith_app s t : endswith (s +:+ t) t = true.
Proof.
  unfold endswith. rewrite app_length.
  replace (String.length s + String.length t - String.length t)%nat
    with (String.length s) by lia.
  rewrite sdrop_app, String.eqb_refl, andb_true_r.
  apply Nat.leb_le. lia.
Qed.

Lemma last_n_length {A} n (l : list A) : (length (last_n n l) ≤ n)%nat.
Proof. unfold last_n. rewrite length_drop. lia. Qed.

Lemma last_n_suffix {A} n (l : list A) : last_n n l `suffix_of` l.
Proof. apply suffix_drop. Qed.

Lemma last_n_short {A} n (l : list A) : (length l ≤ n)%nat → last_n n l = l.
Proof.
  intros Hle. unfold last_n.
  by replace (length l - n)%nat with O by lia.
Qed.

Lemma last_n_long {A} n (l : list A) :
  (n < length l)%nat → length (last_n n l) = n ∧ last_n n l ≠ l.
Proof.
  intros Hlt. unfold last_n.
  assert (length (drop (length l - n) l) = n) as Hlen
    by (rewrite length_drop; lia).
  split; [exact Hlen|].
  intros Heq. rewrite Heq in Hlen. lia.
Qed.

End Strings.

(** ** Facts about the codec policy table *)

Section CodecTable.
Import PyStr.

Lemma get_output_codec_lower s : get_output_codec (lower s) = get_output_codec s.
Proof. unfold get_output_codec. by rewrite lower_idemp. Qed.

Lemma get_output_codec_entry k v :
  (k, v) ∈ format_codec_entries → get_output_codec k = v.
Proof.
  unfold format_codec_entries. intros Hin.
  repeat (apply elem_of_cons in Hin as [Hin|Hin];
          [injection Hin as -> ->; vm_compute; reflexivity|]).
  by apply elem_of_nil in Hin.
Qed.

Lemma get_output_codec_unknown s :
  lower s ∉ format_codec_entries.*1 → get_output_codec s = ["-c:a"; "copy"].
Proof.
  intros Hnot. unfold get_output_codec, format_codec_map.
  by rewrite (not_elem_of_list_to_map_1 _ _ Hnot).
Qed.

(** Only the entries for ".mp3" and ".ogg" carry the quality flag. *)
Lemma quality_flag_formats s :
  bool_decide ("-q:a" ∈ get_output_codec s) = bool_decide (lower s ∈ [".mp3"; ".ogg"]).
Proof.
  destruct (decide (lower s ∈ format_codec_entries.*1)) as [Hin|Hnot].
  - rewrite <- get_output_codec_lower.
    cbn [fmap list_fmap format_codec_entries fst] in Hin.
    repeat (apply elem_of_cons in Hin as [->|Hin]; [vm_compute; reflexivity|]).
    by apply elem_of_nil in Hin.
  - rewrite (get_output_codec_unknown _ Hnot).
    symmetry. apply bool_decide_eq_false_2. intros Hin. apply Hnot.
    cbn [fmap list_fmap format_codec_entries fst].
    apply elem_of_cons in Hin as [->|Hin]; [set_solver|].
    apply elem_of_cons in Hin as [->|Hin]; [set_solver|].
    by apply elem_of_nil in Hin.
Qed.


End CodecTable.

Ltac reduce_M := cbn beta iota zeta delta [fst snd app negb] in *.

Section SingleFile.
Context {W : Type} `{!OS W}.
Implicit Types (w : W) (input_file : string) (output_file format : option string)
  (quality : option Z).

Lemma emit_all_run (es : list event) w : emit_all es w = (es, w, Ret tt).
Proof.
  induction es as [|e es IH]; [reflexivity|].
  cbn [emit_all]. step_M. by rewrite IH.
Qed.

(** What [convert_file] does once the input exists and a target format
    has been resolved: one command, classified by its outcome. *)
Lemma convert_file_runs w input_file output_file quality format output_format :
  os_path_isfile w input_file = true →
  resolve_output_format format output_file = Some output_format →
  convert_file input_file output_file quality format w
  = let out := resolve_output_file input_file output_file output_format in
    let cmd := ffmpeg_cmd input_file (codec_settings_for output_format quality) out in
    match subprocess_run w cmd with
    | (Ret result, w') =>
        if returncode result =? 0
        then (announce input_file out cmd
                ++ [ PrintNoNl clear_line;
                     Log SUCCESS ("Successfully converted to " +:+ OsPath.basename out) ],
              w', Ret true)
        else (announce input_file out cmd
                ++ [ PrintNoNl clear_line;
                     Log ERROR ("FFmpeg conversion failed for '" +:+ input_file +:+ "'");
                     Log WARN "FFmpeg error details:" ]
                ++ ((λ line, Print ("  " +:+ line))
                      <$> PyStr.last_n 5 (PyStr.splitlines (stderr result))),
              w', Ret false)
    | (Raise e, w') =>
        if is_Exception e
        then (announce input_file out cmd
                ++ [ PrintNoNl clear_line;
                     Log ERROR ("An error occurred: " +:+ message e) ],
              w', Ret false)
        else (announce input_file out cmd, w', Raise e)
    end.
Proof.
  intros Hfile Hfmt. unfold convert_file, report_completed. step_M.
  rewrite Hfile, Hfmt. reduce_M.
  set (cmd := ffmpeg_cmd _ _ _).
  destruct (subprocess_run w cmd) as [[result|e] w']; reduce_M.
  - destruct (returncode result =? 0); reduce_M.
    + reflexivity.
    + rewrite emit_all_run. reduce_M. by rewrite app_nil_r.
  - destruct (is_Exception e); reflexivity.
Qed.

(** C2. An input path that is not an existing regular file makes
    [convert_file] return [False]; the only thing it does is print the
    "does not exist" error: no command is issued and the world is unchanged. *)
Theorem convert_file_missing_input w input_file output_file quality format :
  os_path_isfile w input_file = false →
  convert_file input_file output_file quality format w
  = ([Log ERROR ("The file '" +:+ input_file +:+ "' does not exist.")], w, Ret false)
  ∧ spawned (convert_file input_file output_file quality format w).1.1 = [].
Proof.
  intros Hfile.
  assert (convert_file input_file output_file quality format w
          = ([Log ERROR ("The file '" +:+ input_file +:+ "' does not exist.")], w, Ret false))
    as Heq.
  { unfold convert_file. step_M. rewrite Hfile. reflexivity. }
  split; [exact Heq | rewrite Heq; reflexivity].
Qed.

Lemma spawned_app (t1 t2 : list event) : spawned (t1 ++ t2) = spawned t1 ++ spawned t2.
Proof.
  induction t1 as [|e t1 IH]; [reflexivity|].
  destruct e; cbn [app spawned]; by rewrite ?IH.
Qed.

Lemma spawned_prints {A} (f : A → string) (lines : list A) :
  spawned ((λ line, Print (f line)) <$> lines) = [].
Proof. induction lines as [|l lines IH]; [reflexivity | exact IH]. Qed.

(** Once the input exists and a target format is resolved, exactly one
    command is issued, whatever the encoder then does. *)
Lemma convert_file_spawned w input_file output_file quality format output_format :
  os_path_isfile w input_file = true →
  resolve_output_format format output_file = Some output_format →
  spawned (convert_file input_file output_file quality format w).1.1
  = [ffmpeg_cmd input_file (codec_settings_for output_format quality)
       (resolve_output_file input_file output_file output_format)].
Proof.
  intros Hfile Hfmt. rewrite (convert_file_runs _ _ _ _ _ _ Hfile Hfmt).
  cbn zeta. destruct (subprocess_run w _) as [[result|e] w'].
  - destruct (returncode result =? 0); cbn [fst snd];
      rewrite !spawned_app, ?spawned_prints; reflexivity.
  - destruct (is_Exception e); cbn [fst snd]; rewrite ?spawned_app; reflexivity.
Qed.

Lemma resolve_format_override fmt output_file :
  fmt ≠ "" → resolve_output_format (Some fmt) output_file = Some ("." +:+ PyStr.lower fmt).
Proof. by destruct fmt. Qed.

Lemma truthy_false_cases (o : option string) :
  truthy o = false → o = None ∨ o = Some "".
Proof. destruct o as [[|c s]|]; cbn; auto; discriminate. Qed.

(** The codec arguments of the two quality-scaled formats. *)
Lemma codec_settings_ogg q :
  codec_settings_for ".ogg" (Some q) = ["-c:a"; "libvorbis"; "-q:a"; pretty q].
Proof.
  unfold codec_settings_for.
  rewrite (get_output_codec_entry ".ogg" ["-c:a"; "libvorbis"; "-q:a"; "5"])
    by (unfold format_codec_entries; set_solver).
  reflexivity.
Qed.

Lemma codec_settings_mp3 q :
  codec_settings_for ".mp3" (Some q) = ["-c:a"; "libmp3lame"; "-q:a"; pretty q].
Proof.
  unfold codec_settings_for.
  rewrite (get_output_codec_entry ".mp3" ["-c:a"; "libmp3lame"; "-q:a"; "4"])
    by (unfold format_codec_entries; set_solver).
  reflexivity.
Qed.

Lemma codec_settings_lower output_format quality :
  codec_settings_for (PyStr.lower output_format) quality
  = codec_settings_for output_format quality.
Proof. unfold codec_settings_for. by rewrite get_output_codec_lower. Qed.

Lemma codec_settings_no_flag output_format quality :
  "-q:a" ∉ get_output_codec output_format →
  codec_settings_for output_format quality = get_output_codec output_format.
Proof.
  intros Hnot. unfold codec_settings_for.
  destruct quality as [q|]; [|reflexivity].
  by rewrite (bool_decide_eq_false_2 _ Hnot).
Qed.

(** C4. The target format is the explicit format if one is given, else
    the (lower-cased) extension of the explicit output name, else ".ogg";
    an output name without extension and no format is refused with the
    "no output format" error before any command is issued; and without an
    output name the command writes to the input path with its extension
    replaced by the target format. "Given" is what the code tests: present
    and non-empty. The last three parts state the precedence of
    [convert_file] itself: in each of the three cases the one command it
    issues carries the codec arguments of that target format and the
    output name as given or as derived. *)
Theorem target_format_resolution :
  (∀ fmt output_file,
     fmt ≠ "" →
     resolve_output_format (Some fmt) output_file = Some ("." +:+ PyStr.lower fmt))
  ∧ (∀ format out,
       truthy format = false → out ≠ "" → PyStr.lower (OsPath.splitext out).2 ≠ "" →
       resolve_output_format format (Some out) = Some (PyStr.lower (OsPath.splitext out).2))
  ∧ (∀ format output_file,
       truthy format = false → truthy output_file = false →
       resolve_output_format format output_file = Some ".ogg")
  ∧ (∀ w input_file out quality format,
       os_path_isfile w input_file = true →
       truthy format = false → out ≠ "" → (OsPath.splitext out).2 = "" →
       convert_file input_file (Some out) quality format w
       = ([Log ERROR "No output format specified in output filename."], w, Ret false))
  ∧ (∀ w input_file quality format output_format,
       os_path_isfile w input_file = true →
       resolve_output_format format None = Some output_format →
       spawned (convert_file input_file None quality format w).1.1
       = [ffmpeg_cmd input_file (codec_settings_for output_format quality)
            ((OsPath.splitext input_file).1 +:+ output_format)])
  ∧ (∀ w input_file output_file quality fmt,
       os_path_isfile w input_file = true →
       fmt ≠ "" →
       spawned (convert_file input_file output_file quality (Some fmt) w).1.1
       = [["ffmpeg"; "-i"; input_file]
            ++ codec_settings_for ("." +:+ PyStr.lower fmt) quality
            ++ [match output_file with
                | Some out => out
                | None => (OsPath.splitext input_file).1 +:+ ("." +:+ PyStr.lower fmt)
                end]])
  ∧ (∀ w input_file out quality format,
       os_path_isfile w input_file = true →
       truthy format = false → out ≠ "" → PyStr.lower (OsPath.splitext out).2 ≠ "" →
       spawned (convert_file input_file (Some out) quality format w).1.1
       = [["ffmpeg"; "-i"; input_file]
            ++ codec_settings_for (PyStr.lower (OsPath.splitext out).2) quality
            ++ [out]])
  ∧ (∀ w input_file output_file quality format,
       os_path_isfile w input_file = true →
       truthy format = false → truthy output_file = false →
       spawned (convert_file input_file output_file quality format w).1.1
       = [["ffmpeg"; "-i"; input_file]
            ++ codec_settings_for ".ogg" quality
            ++ [match output_file with
                | Some out => out
                | None => (OsPath.splitext input_file).1 +:+ ".ogg"
                end]]).
Proof.
  assert (∀ format out,
            truthy format = false → out ≠ "" →
            PyStr.lower (OsPath.splitext out).2 ≠ "" →
            resolve_output_format format (Some out)
            = Some (PyStr.lower (OsPath.splitext out).2)) as Hext.
  { intros format out Hfmt Hout Hext.
    apply truthy_false_cases in Hfmt as [-> | ->];
      destruct out as [|c out]; try done;
      cbn [resolve_output_format];
      by destruct (PyStr.lower (OsPath.splitext (String c out)).2). }
  assert (∀ format output_file,
            truthy format = false → truthy output_file = false →
            resolve_output_format format output_file = Some ".ogg") as Hdefault.
  { intros format output_file Hfmt Hout.
    by apply truthy_false_cases in Hfmt as [-> | ->];
      apply truthy_false_cases in Hout as [-> | ->]. }
  split_and!.
  - intros fmt output_file Hne. by apply resolve_format_override.
  - exact Hext.
  - exact Hdefault.
  - intros w input_file out quality format Hfile Hfmt Hout Hnoext.
    assert (resolve_output_format format (Some out) = None) as Hnone.
    { apply truthy_false_cases in Hfmt as [-> | ->];
        destruct out as [|c out]; try done;
        cbn [resolve_output_format]; by rewrite Hnoext. }
    unfold convert_file. step_M. rewrite Hfile, Hnone. reflexivity.
  - intros w input_file quality format output_format Hfile Hfmt.
    by rewrite (convert_file_spawned _ _ _ _ _ _ Hfile Hfmt).
  - intros w input_file output_file quality fmt Hfile Hne.
    rewrite (convert_file_spawned _ _ _ _ _ _ Hfile (resolve_format_override _ _ Hne)).
    by destruct output_file.
  - intros w input_file out quality format Hfile Hfmt Hout Hlower.
    by rewrite (convert_file_spawned _ _ _ _ _ _ Hfile (Hext _ _ Hfmt Hout Hlower)).
  - intros w input_file output_file quality format Hfile Hfmt Hout.
    rewrite (convert_file_spawned _ _ _ _ _ _ Hfile (Hdefault _ _ Hfmt Hout)).
    by destruct output_file.
Qed.

(** C5, as the code has it. When the encoder exits with a non-zero status,
    [convert_file] returns [False]; after the two headline messages it
    prints the last five lines of the captured error stream, each indented
    by two spaces: all of its lines when there are five or fewer. At most
    five lines are printed, they are the tail of the stream, and a stream
    of more than five lines is never printed in full. *)
Theorem encoder_failure_report w input_file output_file quality format
    output_format result w' :
  os_path_isfile w input_file = true →
  resolve_output_format format output_file = Some output_format →
  let out := resolve_output_file input_file output_file output_format in
  let cmd := ffmpeg_cmd input_file (codec_settings_for output_format quality) out in
  let lines := PyStr.splitlines (stderr result) in
  let shown := PyStr.last_n 5 lines in
  subprocess_run w cmd = (Ret result, w') →
  returncode result ≠ 0 →
  convert_file input_file output_file quality format w
  = (announce input_file out cmd
       ++ [ PrintNoNl clear_line;
            Log ERROR ("FFmpeg conversion failed for '" +:+ input_file +:+ "'");
            Log WARN "FFmpeg error details:" ]
       ++ ((λ line, Print ("  " +:+ line)) <$> shown),
     w', Ret false)
  ∧ (length shown ≤ 5)%nat
  ∧ shown `suffix_of` lines
  ∧ ((5 < length lines)%nat → length shown = 5%nat ∧ shown ≠ lines).
Proof.
  intros Hfile Hfmt out cmd lines shown Hrun Hrc.
  split_and!.
  - rewrite (convert_file_runs _ _ _ _ _ _ Hfile Hfmt). cbn zeta.
    fold out. fold cmd. rewrite Hrun.
    by rewrite (proj2 (Z.eqb_neq _ _) Hrc).
  - apply last_n_length.
  - apply last_n_suffix.
  - apply last_n_long.
Qed.

(** C7. Target format ogg with quality 8: the codec arguments are those
    of the table with the value after "-q:a" replaced by "8" (and by
    [str(q)] for any quality [q]), and they are the ones in the command
    that [convert_file] issues. *)
Theorem ogg_quality_substitution :
  get_output_codec ".ogg" = ["-c:a"; "libvorbis"; "-q:a"; "5"]
  ∧ codec_settings_for ".ogg" (Some 8) = ["-c:a"; "libvorbis"; "-q:a"; "8"]
  ∧ (∀ q, codec_settings_for ".ogg" (Some q) = ["-c:a"; "libvorbis"; "-q:a"; pretty q])
  ∧ (∀ w input_file output_file,
       os_path_isfile w input_file = true →
       spawned (convert_file input_file output_file (Some 8) (Some "ogg") w).1.1
       = [["ffmpeg"; "-i"; input_file; "-c:a"; "libvorbis"; "-q:a"; "8";
           resolve_output_file input_file output_file ".ogg"]]).
Proof.
  split_and!.
  - apply get_output_codec_entry. unfold format_codec_entries. set_solver.
  - apply (codec_settings_ogg 8).
  - apply codec_settings_ogg.
  - intros w input_file output_file Hfile.
    rewrite (convert_file_spawned _ _ _ _ _ ".ogg" Hfile) by reflexivity.
    by rewrite (codec_settings_ogg 8).
Qed.

(** C9. With both an output name and a format, the command writes to the
    output name exactly as given and takes its codec arguments from the
    format; the resolved format is the same whatever the output name is. *)
Theorem output_name_kept_codec_from_format w input_file out fmt quality :
  fmt ≠ "" →
  os_path_isfile w input_file = true →
  spawned (convert_file input_file (Some out) quality (Some fmt) w).1.1
  = [["ffmpeg"; "-i"; input_file]
       ++ codec_settings_for ("." +:+ PyStr.lower fmt) quality ++ [out]]
  ∧ (∀ output_file,
       resolve_output_format (Some fmt) output_file
       = resolve_output_format (Some fmt) (Some out)).
Proof.
  intros Hne Hfile. split.
  - by rewrite (convert_file_spawned _ _ _ _ _ _ Hfile (resolve_format_override _ _ Hne)).
  - intros output_file. by rewrite !resolve_format_override.
Qed.

(** C10. A target format whose codec arguments lack "-q:a" gives the
    same codec arguments, and the same run of [convert_file], for any two
    quality values. The flag is present exactly for ".mp3" and ".ogg"
    (in any letter case), and for these two distinct quality values give
    distinct codec arguments. *)
Theorem quality_matters_only_for_mp3_ogg :
  (∀ output_format q1 q2,
     "-q:a" ∉ get_output_codec output_format →
     codec_settings_for output_format q1 = codec_settings_for output_format q2)
  ∧ (∀ output_format,
       "-q:a" ∈ get_output_codec output_format
       ↔ PyStr.lower output_format ∈ [".mp3"; ".ogg"])
  ∧ (∀ w input_file output_file format output_format q1 q2,
       resolve_output_format format output_file = Some output_format →
       PyStr.lower output_format ∉ [".mp3"; ".ogg"] →
       convert_file input_file output_file q1 format w
       = convert_file input_file output_file q2 format w)
  ∧ (∀ output_format (q1 q2 : Z),
       PyStr.lower output_format ∈ [".mp3"; ".ogg"] → q1 ≠ q2 →
       codec_settings_for output_format (Some q1)
       ≠ codec_settings_for output_format (Some q2)).
Proof.
  assert (∀ output_format,
            "-q:a" ∈ get_output_codec output_format
            ↔ PyStr.lower output_format ∈ [".mp3"; ".ogg"]) as Hflag.
  { intros output_format.
    rewrite <- (bool_decide_spec ("-q:a" ∈ get_output_codec output_format)).
    rewrite quality_flag_formats. apply bool_decide_spec. }
  split_and!.
  - intros output_format q1 q2 Hnot. by rewrite !codec_settings_no_flag.
  - exact Hflag.
  - intros w input_file output_file format output_format q1 q2 Hfmt Hnot.
    unfold convert_file. rewrite Hfmt.
    assert ("-q:a" ∉ get_output_codec output_format) as Hno by (by rewrite Hflag).
    by rewrite (codec_settings_no_flag _ q1 Hno), (codec_settings_no_flag _ q2 Hno).
  - intros output_format q1 q2 Hin Hne Heq.
    rewrite <- (codec_settings_lower output_format (Some q1)) in Heq.
    rewrite <- (codec_settings_lower output_format (Some q2)) in Heq.
    apply Hne, (inj pretty).
    apply elem_of_cons in Hin as [Hin|Hin].
    + rewrite Hin, !codec_settings_mp3 in Heq. by simplify_eq.
    + apply elem_of_cons in Hin as [Hin|Hin]; [|by apply elem_of_nil in Hin].
      rewrite Hin, !codec_settings_ogg in Heq. by simplify_eq.
Qed.

End SingleFile.

(** C2 at a concrete input: the file "music/none.wav" is not on disk. *)
Lemma convert_file_missing_input_witness :
  convert_file "music/none.wav" None (Some 5) (Some "mp3") Demo.music
  = ([Log ERROR "The file 'music/none.wav' does not exist."], Demo.music, Ret false)
  ∧ spawned (convert_file "music/none.wav" None (Some 5) (Some "mp3") Demo.music).1.1 = [].
Proof.
  apply (convert_file_missing_input Demo.music "music/none.wav" None (Some 5) (Some "mp3")).
  reflexivity.
Defined.

Section Batch.
Context {W : Type} `{!OS W}.
Implicit Types (w : W) (c : counters).

Lemma already_target_name_suffix format stem :
  already_target ("." +:+ PyStr.lower format) (stem +:+ "." +:+ format) = true.
Proof.
  unfold already_target. rewrite lower_app.
  change ("." +:+ format) with (String "." format).
  change ("." +:+ PyStr.lower format) with (String "." (PyStr.lower format)).
  change (PyStr.lower (String "." format)) with (String "." (PyStr.lower format)).
  apply endswith_app.
Qed.

Lemma convert_folder_step_skip w folder_path quality format output_format total_files
    i filename c :
  already_target output_format filename = true →
  convert_folder_step folder_path quality format output_format total_files i filename c w
  = ([Log INFO (progress_tag i total_files +:+ " Skipping: " +:+ filename
                +:+ " (already in target format)")],
     w, Ret (Counters (success_count c) (skip_count c + 1) (fail_count c))).
Proof. intros Hskip. unfold convert_folder_step. rewrite Hskip. reflexivity. Qed.

Lemma convert_folder_step_other w folder_path quality format output_format total_files
    i filename c t w' c' :
  already_target output_format filename = false →
  convert_folder_step folder_path quality format output_format total_files i filename c w
  = (t, w', Ret c') →
  skip_count c' = skip_count c
  ∧ success_count c' + fail_count c' = success_count c + fail_count c + 1.
Proof.
  intros Hskip. unfold convert_folder_step. rewrite Hskip. step_M.
  destruct (PyNum.percent_of i total_files) as [percent|e]; reduce_M; [|discriminate].
  destruct (convert_file _ _ _ _ w) as [[t1 w1] [[]|e]]; reduce_M;
    intros [= <- <- <-]; cbn; lia.
Qed.

(** The counters after the loop: one more skip per candidate already in
    the target format, one more success or failure per other candidate. *)
Lemma convert_folder_loop_counts folder_path quality format output_format total_files
    audio_files : ∀ i c w t w' c',
  convert_folder_loop folder_path quality format output_format total_files
    i audio_files c w = (t, w', Ret c') →
  skip_count c'
  = skip_count c + Z.of_nat (length (filter (λ f, already_target output_format f = true) audio_files))
  ∧ success_count c' + fail_count c'
    = success_count c + fail_count c
      + Z.of_nat (length (filter (λ f, already_target output_format f = false) audio_files)).
Proof.
  induction audio_files as [|filename rest IH]; intros i c w t w' c'.
  - intros [= <- <- <-]. cbn. lia.
  - cbn [convert_folder_loop]. unfold mbind at 1, M_bind at 1.
    destruct (convert_folder_step _ _ _ _ _ i filename c w) as [[t1 w1] [c1|e]] eqn:Hstep;
      [|discriminate].
    destruct (convert_folder_loop _ _ _ _ _ (i + 1) rest c1 w1) as [[t2 w2] r2] eqn:Hloop.
    intros [= <- <- ->].
    apply IH in Hloop as [Hs Hf].
    rewrite !filter_cons.
    destruct (already_target output_format filename) eqn:Hskip.
    + rewrite (convert_folder_step_skip _ _ _ _ _ _ _ _ _ Hskip) in Hstep.
      injection Hstep as <- <- <-. cbn [skip_count success_count fail_count] in *.
      rewrite decide_True by done. rewrite decide_False by done.
      cbn [length]. lia.
    + apply (convert_folder_step_other _ _ _ _ _ _ _ _ _ _ _ _ Hskip) in Hstep as [Hs1 Hf1].
      rewrite decide_False by done. rewrite decide_True by done.
      cbn [length]. lia.
Qed.

(** The shape of a batch run that returns: the "found" line, the lines of
    the loop, then the summary with the final counters. *)
Lemma convert_folder_returns w folder_path quality format all_files t w' b :
  os_path_isdir w folder_path = true →
  os_listdir w folder_path = Ret all_files →
  candidates all_files ≠ [] →
  convert_folder folder_path quality format w = (t, w', Ret b) →
  let total_files := Z.of_nat (length (candidates all_files)) in
  ∃ t_loop c rate,
    convert_folder_loop folder_path quality format ("." +:+ PyStr.lower format) total_files
      0 (candidates all_files) (Counters 0 0 0) w = (t_loop, w', Ret c)
    ∧ success_rate (success_count c) total_files (skip_count c) = Ret rate
    ∧ t = Log INFO ("Found " +:+ pretty total_files +:+ " potential audio files to convert.")
          :: t_loop
          ++ [ Print "";
               SummaryCounts total_files (success_count c) (skip_count c) (fail_count c);
               SummaryRate rate ]
    ∧ b = (0 <? success_count c).
Proof.
  intros Hdir Hlist Hne. unfold convert_folder, print_summary. step_M.
  rewrite Hdir. reduce_M. rewrite Hlist. reduce_M. fold (candidates all_files).
  destruct (Z.of_nat (length (candidates all_files)) =? 0) eqn:Hzero.
  { apply Z.eqb_eq in Hzero. destruct (candidates all_files); [done | cbn in Hzero; lia]. }
  reduce_M.
  destruct (convert_folder_loop _ _ _ _ _ 0 (candidates all_files) _ w)
    as [[t_loop w1] [c|e]]; reduce_M; [|discriminate].
  destruct (success_rate _ _ _) as [rate|e] eqn:Hrate; reduce_M; [|discriminate].
  intros [= <- <- <-]. by exists t_loop, c, rate.
Qed.

(** The converse direction: a batch run whose loop and rate computation
    return prints the summary and answers whether anything was converted. *)
Lemma convert_folder_runs w folder_path quality format all_files t_loop w' c rate :
  os_path_isdir w folder_path = true →
  os_listdir w folder_path = Ret all_files →
  candidates all_files ≠ [] →
  let total_files := Z.of_nat (length (candidates all_files)) in
  convert_folder_loop folder_path quality format ("." +:+ PyStr.lower format) total_files
    0 (candidates all_files) (Counters 0 0 0) w = (t_loop, w', Ret c) →
  success_rate (success_count c) total_files (skip_count c) = Ret rate →
  convert_folder folder_path quality format w
  = (Log INFO ("Found " +:+ pretty total_files +:+ " potential audio files to convert.")
       :: t_loop
       ++ [ Print "";
            SummaryCounts total_files (success_count c) (skip_count c) (fail_count c);
            SummaryRate rate ],
     w', Ret (0 <? success_count c)).
Proof.
  intros Hdir Hlist Hne total_files Hloop Hrate.
  unfold convert_folder, print_summary. step_M.
  rewrite Hdir. reduce_M. rewrite Hlist. reduce_M. fold (candidates all_files).
  fold total_files.
  destruct (total_files =? 0) eqn:Hzero.
  { apply Z.eqb_eq in Hzero. subst total_files.
    destruct (candidates all_files); [done | cbn in Hzero; lia]. }
  reduce_M. rewrite Hloop. reduce_M. rewrite Hrate. reduce_M. reflexivity.
Qed.

(** An iteration that converts: the progress line, then [convert_file]. *)
Lemma convert_folder_step_convert w folder_path quality format output_format total_files
    i filename c percent t w' (ok : bool) :
  already_target output_format filename = false →
  PyNum.percent_of i total_files = Ret percent →
  convert_file (OsPath.join folder_path filename)
    (Some (OsPath.join folder_path ((OsPath.splitext filename).1 +:+ output_format)))
    (Some quality) (Some format) w = (t, w', Ret ok) →
  convert_folder_step folder_path quality format output_format total_files i filename c w
  = (Log INFO (progress_tag i total_files +:+ " (" +:+ pretty percent +:+ "%) Processing: "
               +:+ filename) :: t,
     w',
     Ret (if ok
          then Counters (success_count c + 1) (skip_count c) (fail_count c)
          else Counters (success_count c) (skip_count c) (fail_count c + 1))).
Proof.
  intros Hskip Hpercent Hconv. unfold convert_folder_step. rewrite Hskip. step_M.
  rewrite Hpercent. reduce_M. rewrite Hconv. reduce_M.
  destruct ok; reduce_M; by rewrite app_nil_r.
Qed.

(** The loop over candidates that are all in the target format already:
    nothing is spawned, the world is untouched, every one is a skip. *)
Lemma convert_folder_loop_all_skipped folder_path quality format output_format total_files
    audio_files : ∀ i c w,
  Forall (λ f, already_target output_format f = true) audio_files →
  ∃ t_loop,
    convert_folder_loop folder_path quality format output_format total_files
      i audio_files c w
    = (t_loop, w,
       Ret (Counters (success_count c) (skip_count c + Z.of_nat (length audio_files))
              (fail_count c)))
    ∧ spawned t_loop = [].
Proof.
  induction audio_files as [|filename rest IH]; intros i c w Hall.
  - exists []. split; [|reflexivity]. cbn [convert_folder_loop length Z.of_nat].
    rewrite Z.add_0_r. by destruct c.
  - apply Forall_cons in Hall as [Hskip Hrest].
    destruct (IH (i + 1) (Counters (success_count c) (skip_count c + 1) (fail_count c))
                w Hrest) as (t_rest & Hloop & Hspawn).
    eexists. split.
    + cbn [convert_folder_loop]. unfold mbind at 1, M_bind at 1.
      rewrite (convert_folder_step_skip _ _ _ _ _ _ _ _ _ Hskip), Hloop.
      cbn [success_count skip_count fail_count].
      do 3 f_equal. cbn [length]. lia.
    + cbn [app spawned]. exact Hspawn.
Qed.

(** C3. In a batch run a candidate whose name ends in "." followed by
    the target format is counted as skipped and nothing else happens for
    it: no command, no change of the success and failure counters. Over a
    whole run the skip counter is the number of such candidates and every
    other candidate is either a success or a failure. For a directory
    listing a.wav, b.mp3, c.txt in any order and target mp3 the candidates
    are a.wav and b.mp3, of which b.mp3 is in the target format; when a.wav
    exists and the encoder exits with 0, the run issues the one command for
    a.wav, returns [True] and reports total 2, converted 1, skipped 1,
    failed 0. *)
Theorem batch_skips_files_in_target_format :
  (∀ w folder_path quality format total_files i stem c,
     convert_folder_step folder_path quality format ("." +:+ PyStr.lower format)
       total_files i (stem +:+ "." +:+ format) c w
     = ([Log INFO (progress_tag i total_files +:+ " Skipping: " +:+ (stem +:+ "." +:+ format)
                   +:+ " (already in target format)")],
        w, Ret (Counters (success_count c) (skip_count c + 1) (fail_count c))))
  ∧ (∀ w folder_path quality format all_files t w' b,
       os_path_isdir w folder_path = true →
       os_listdir w folder_path = Ret all_files →
       candidates all_files ≠ [] →
       convert_folder folder_path quality format w = (t, w', Ret b) →
       let output_format := "." +:+ PyStr.lower format in
       ∃ t_loop converted skipped failed rate,
         t = Log INFO ("Found " +:+ pretty (Z.of_nat (length (candidates all_files)))
                       +:+ " potential audio files to convert.")
             :: t_loop
             ++ [ Print "";
                  SummaryCounts (Z.of_nat (length (candidates all_files)))
                    converted skipped failed;
                  SummaryRate rate ]
         ∧ skipped
           = Z.of_nat (length (filter (λ f, already_target output_format f = true)
                                 (candidates all_files)))
         ∧ converted + failed
           = Z.of_nat (length (filter (λ f, already_target output_format f = false)
                                 (candidates all_files))))
  ∧ (∀ w folder_path quality all_files result w',
       os_path_isdir w folder_path = true →
       os_listdir w folder_path = Ret all_files →
       all_files ≡ₚ ["a.wav"; "b.mp3"; "c.txt"] →
       os_path_isfile w (OsPath.join folder_path "a.wav") = true →
       let cmd := ["ffmpeg"; "-i"; OsPath.join folder_path "a.wav";
                   "-c:a"; "libmp3lame"; "-q:a"; pretty quality;
                   OsPath.join folder_path "a.mp3"] in
       subprocess_run w cmd = (Ret result, w') →
       returncode result = 0 →
       candidates all_files ≡ₚ ["a.wav"; "b.mp3"]
       ∧ already_target ".mp3" "b.mp3" = true
       ∧ already_target ".mp3" "a.wav" = false
       ∧ ∃ t_loop,
           convert_folder folder_path quality "mp3" w
           = (Log INFO "Found 2 potential audio files to convert."
                :: t_loop
                ++ [ Print ""; SummaryCounts 2 1 1 0; SummaryRate 100 ],
              w', Ret true)
           ∧ spawned t_loop = [cmd]).
Proof.
  split_and!.
  - intros. apply convert_folder_step_skip, already_target_name_suffix.
  - intros w folder_path quality format all_files t w' b Hdir Hlist Hne Hrun output_format.
    destruct (convert_folder_returns _ _ _ _ _ _ _ _ Hdir Hlist Hne Hrun)
      as (t_loop & c & rate & Hloop & _ & -> & _).
    apply convert_folder_loop_counts in Hloop as [Hskip Hrest].
    exists t_loop, (success_count c), (skip_count c), (fail_count c), rate.
    cbn [success_count skip_count fail_count] in *.
    split_and!; [reflexivity | by rewrite Hskip | by rewrite Hrest].
  - intros w folder_path quality all_files result w' Hdir Hlist Hperm Hfile cmd Hrun Hrc.
    assert (candidates all_files ≡ₚ ["a.wav"; "b.mp3"]) as Hcands.
    { unfold candidates. rewrite Hperm. vm_compute. reflexivity. }
    split_and!; [exact Hcands | vm_compute; reflexivity | vm_compute; reflexivity |].
    assert (convert_file (OsPath.join folder_path "a.wav")
              (Some (OsPath.join folder_path "a.mp3")) (Some quality) (Some "mp3") w
            = (announce (OsPath.join folder_path "a.wav")
                 (OsPath.join folder_path "a.mp3") cmd
                 ++ [ PrintNoNl clear_line;
                      Log SUCCESS ("Successfully converted to "
                                   +:+ OsPath.basename (OsPath.join folder_path "a.mp3")) ],
               w', Ret true)) as Hconv.
    { rewrite (convert_file_runs _ _ _ _ _ ".mp3" Hfile) by reflexivity.
      cbn zeta. rewrite codec_settings_mp3.
      change (ffmpeg_cmd _ _ _) with cmd. rewrite Hrun, Hrc. reflexivity. }
    symmetry in Hcands.
    apply Permutation.Permutation_length_2_inv in Hcands as [Hcands|Hcands].
    + eexists. split.
      * erewrite (convert_folder_runs w folder_path quality "mp3" _ _ w' (Counters 1 1 0) 100
                    Hdir Hlist).
        -- rewrite Hcands. reflexivity.
        -- by rewrite Hcands.
        -- rewrite Hcands. cbn [convert_folder_loop]. unfold mbind at 1, M_bind at 1.
           erewrite (convert_folder_step_convert w folder_path quality "mp3" _ _ 0
                       "a.wav" _ 0);
             [ | vm_compute; reflexivity | vm_compute; reflexivity | exact Hconv ].
           unfold mbind at 1, M_bind at 1.
           rewrite convert_folder_step_skip by (vm_compute; reflexivity).
           reflexivity.
        -- rewrite Hcands. vm_compute. reflexivity.
      * reflexivity.
    + eexists. split.
      * erewrite (convert_folder_runs w folder_path quality "mp3" _ _ w' (Counters 1 1 0) 100
                    Hdir Hlist).
        -- rewrite Hcands. reflexivity.
        -- by rewrite Hcands.
        -- rewrite Hcands. cbn [convert_folder_loop]. unfold mbind at 1, M_bind at 1.
           rewrite convert_folder_step_skip by (vm_compute; reflexivity).
           unfold mbind at 1, M_bind at 1.
           erewrite (convert_folder_step_convert w folder_path quality "mp3" _ _ (0 + 1)
                       "a.wav" _ 50);
             [ | vm_compute; reflexivity | vm_compute; reflexivity | exact Hconv ].
           reflexivity.
        -- rewrite Hcands. vm_compute. reflexivity.
      * reflexivity.
Qed.

(** C8. The success rate of the summary never divides by zero: the rate
    expression cannot raise [ZeroDivisionError]; when the skipped count
    equals the total it is 0 and the summary ends with rate 0; and a run
    over candidates that are all in the target format already prints
    total = skipped and rate 0. *)
Theorem success_rate_guards_division :
  (∀ converted total_files skipped e,
     success_rate converted total_files skipped = Raise e → kind e ≠ ZeroDivisionError)
  ∧ (∀ converted total_files, success_rate converted total_files total_files = Ret 0)
  ∧ (∀ w total_files c,
       skip_count c = total_files →
       print_summary total_files c w
       = ([ Print "";
            SummaryCounts total_files (success_count c) total_files (fail_count c);
            SummaryRate 0 ],
          w, Ret tt))
  ∧ (∀ w folder_path quality format all_files,
       os_path_isdir w folder_path = true →
       os_listdir w folder_path = Ret all_files →
       candidates all_files ≠ [] →
       Forall (λ f, already_target ("." +:+ PyStr.lower format) f = true)
         (candidates all_files) →
       let total_files := Z.of_nat (length (candidates all_files)) in
       ∃ t_loop,
         convert_folder folder_path quality format w
         = (Log INFO ("Found " +:+ pretty total_files
                      +:+ " potential audio files to convert.")
              :: t_loop
              ++ [ Print ""; SummaryCounts total_files 0 total_files 0; SummaryRate 0 ],
            w, Ret false)).
Proof.
  assert (∀ converted total_files, success_rate converted total_files total_files = Ret 0)
    as Hzero.
  { intros converted total_files. unfold success_rate.
    by rewrite Z.sub_diag. }
  split_and!.
  - intros converted total_files skipped e. unfold success_rate.
    destruct (0 <? total_files - skipped) eqn:Hpos; [|discriminate].
    apply Z.ltb_lt in Hpos.
    unfold PyNum.percent_of, PyNum.truediv.
    destruct (total_files - skipped =? 0) eqn:Hdiv; [apply Z.eqb_eq in Hdiv; lia|].
    unfold mbind, result_bind, PyNum.int_of_float.
    destruct (Prim2SF _); intros [= <-]; discriminate.
  - exact Hzero.
  - intros w total_files c <-. unfold print_summary. step_M.
    rewrite Hzero. reflexivity.
  - intros w folder_path quality format all_files Hdir Hlist Hne Hall total_files.
    destruct (convert_folder_loop_all_skipped folder_path quality format
                ("." +:+ PyStr.lower format) total_files (candidates all_files)
                0 (Counters 0 0 0) w Hall) as (t_loop & Hloop & _).
    exists t_loop.
    rewrite (convert_folder_runs _ _ _ _ _ _ _ _ 0 Hdir Hlist Hne Hloop).
    + reflexivity.
    + cbn [success_count skip_count]. rewrite Z.add_0_l. apply Hzero.
Qed.

End Batch.

Section FrontEnd.
Context {W : Type} `{!OS W}.
Implicit Types (w : W) (args : Args).

Lemma list_supported_formats_run w :
  ∃ t, list_supported_formats w = (t, w, Ret tt) ∧ spawned t = [].
Proof.
  unfold list_supported_formats. step_M. rewrite emit_all_run. reduce_M.
  eexists. split; [reflexivity|].
  cbn [spawned]. rewrite spawned_app, spawned_prints. reflexivity.
Qed.

Lemma list_supported_formats_trace w :
  list_supported_formats w = (format_listing, w, Ret tt).
Proof.
  unfold list_supported_formats. step_M. rewrite emit_all_run. reduce_M.
  vm_compute. reflexivity.
Qed.

(** C1, as the code has it. Without arguments the help is shown and the
    exit code is 0 in every world. The list-formats action comes after
    the probe of the encoder: when the probe could start the encoder, the
    script prints the list of formats (the heading, the twenty formats in
    four rows, the two closing lines) and exits with 0; when the probe
    raised, the script exits with 1 and the list is not printed: after
    the probe come only the two "not installed" lines for a missing
    executable, the "cancelled" line for an interrupt, and nothing for
    any other exception. *)
Theorem list_formats_exit_code :
  (∀ w args, script 1 args w = ([Banner; Help], w, 0))
  ∧ (∀ w argc args probe w',
       argc ≠ 1%nat → list_formats args = true →
       subprocess_run w ["ffmpeg"; "-version"] = (Ret probe, w') →
       exit_code argc args w = 0
       ∧ script argc args w
         = ([ Banner; Spawn ["ffmpeg"; "-version"];
              Print (nl +:+ "Commonly Supported Audio Formats:");
              Print "  mp3     aac     ogg     opus    m4a     ";
              Print "  wma     vorbis  flac    wav     aiff    ";
              Print "  alac    ape     wv      ac3     amr     ";
              Print "  au      mid     mka     ra      shn     ";
              Print (nl +:+ "Note: Actual support depends on your FFmpeg installation.");
              Print ("For a complete list, run: ffmpeg -formats" +:+ nl) ],
            w', 0))
  ∧ (∀ w argc args e w',
       argc ≠ 1%nat → list_formats args = true →
       subprocess_run w ["ffmpeg"; "-version"] = (Raise e, w') →
       exit_code argc args w = 1
       ∧ script argc args w
         = (Banner :: Spawn ["ffmpeg"; "-version"]
              :: match kind e with
                 | FileNotFoundError =>
                     [ Log ERROR "FFmpeg is not installed or not in the system PATH.";
                       Log INFO "Please install FFmpeg to use this converter: https://ffmpeg.org/download.html" ]
                 | KeyboardInterrupt => [Print nl; Log INFO "Operation cancelled by user."]
                 | _ => []
                 end,
            w', 1)
       ∧ (kind e = FileNotFoundError →
          script argc args w
          = ([ Banner; Spawn ["ffmpeg"; "-version"];
               Log ERROR "FFmpeg is not installed or not in the system PATH.";
               Log INFO "Please install FFmpeg to use this converter: https://ffmpeg.org/download.html" ],
             w', 1))).
Proof.
  split_and!.
  - intros w args. reflexivity.
  - intros w argc args probe w' Hargc Hlist Hprobe.
    assert (script argc args w
            = (Banner :: Spawn ["ffmpeg"; "-version"] :: format_listing, w', 0)) as Hscript.
    { unfold script, main. step_M.
      rewrite (proj2 (Nat.eqb_neq argc 1) Hargc). reduce_M.
      rewrite Hprobe. reduce_M. rewrite Hlist.
      rewrite list_supported_formats_trace. reduce_M. by rewrite app_nil_r. }
    split; [unfold exit_code; by rewrite Hscript | exact Hscript].
  - intros w argc args e w' Hargc Hlist Hprobe.
    unfold exit_code, script, main. step_M.
    rewrite (proj2 (Nat.eqb_neq argc 1) Hargc). reduce_M.
    rewrite Hprobe. reduce_M.
    unfold is_FileNotFoundError.
    destruct e as [k msg]; destruct k; cbn;
      (split_and!; [reflexivity | reflexivity | try discriminate]).
    reflexivity.
Qed.

End FrontEnd.

(** * The properties at concrete inputs *)

Section Examples.
Import PyStr OsPath Demo.

Example lower_mixed : lower "Track.MP3" = "track.mp3".
Proof. reflexivity. Qed.

Example splitext_plain : splitext "track.wav" = ("track", ".wav").
Proof. reflexivity. Qed.

Example splitext_dotfile : splitext "dir.d/.bashrc" = ("dir.d/.bashrc", "").
Proof. reflexivity. Qed.

Example splitext_no_ext : splitext "music/out" = ("music/out", "").
Proof. reflexivity. Qed.

Example splitext_two_dots : splitext "a.tar.gz" = ("a.tar", ".gz").
Proof. reflexivity. Qed.

Example join_plain : join "music" "a.wav" = "music/a.wav".
Proof. reflexivity. Qed.

Example join_trailing_slash : join "music/" "a.wav" = "music/a.wav".
Proof. reflexivity. Qed.

Example basename_plain : basename "music/a.wav" = "a.wav".
Proof. reflexivity. Qed.

Example endswith_yes : endswith "b.mp3" ".mp3" = true.
Proof. reflexivity. Qed.

Example endswith_too_short : endswith "p3" ".mp3" = false.
Proof. reflexivity. Qed.

Example splitlines_mixed :
  splitlines ("a" +:+ nl +:+ nl +:+ "b" +:+ cr +:+ nl +:+ "c" +:+ nl)
  = ["a"; ""; "b"; "c"].
Proof. reflexivity. Qed.

Example last_n_of_seven : last_n 5 [1; 2; 3; 4; 5; 6; 7] = [3; 4; 5; 6; 7].
Proof. reflexivity. Qed.

Example last_n_of_two : last_n 5 [1; 2] = [1; 2].
Proof. reflexivity. Qed.

(** [int((29 / 100) * 100)] is 28 in binary64 arithmetic. *)
Example percent_rounding : PyNum.percent_of 29 100 = Ret 28.
Proof. vm_compute. reflexivity. Qed.

Example derived_output_name :
  resolve_output_file "track.wav" None ".mp3" = "track.mp3".
Proof. reflexivity. Qed.

(** An empty output name is not "given": the default format applies and
    the empty name is passed on to the encoder. *)
Example empty_output_name :
  spawned (convert_file "music/a.wav" (Some "") (Some 5) None music).1.1
  = [["ffmpeg"; "-i"; "music/a.wav"; "-c:a"; "libvorbis"; "-q:a"; "5"; ""]].
Proof. vm_compute. reflexivity. Qed.

(** The batch run of the example directory, event by event. *)
Example convert_folder_music :
  convert_folder "music" 5 "mp3" music
  = ([ Log INFO "Found 2 potential audio files to convert.";
       Log INFO "[1/2] (0%) Processing: a.wav";
       Log INFO "Converting: a.wav -> a.mp3";
       PrintNoNl "[PROCESSING] ";
       Spawn ["ffmpeg"; "-i"; "music/a.wav"; "-c:a"; "libmp3lame"; "-q:a"; "5";
              "music/a.mp3"];
       PrintNoNl clear_line;
       Log SUCCESS "Successfully converted to a.mp3";
       Log INFO "[2/2] Skipping: b.mp3 (already in target format)";
       Print "";
       SummaryCounts 2 1 1 0;
       SummaryRate 100 ],
     World (regular_files music ++ ["music/a.mp3"]) (directories music) (encoder music),
     Ret true).
Proof. vm_compute. reflexivity. Qed.

End Examples.

(** C1, counterexample to the claim as stated: with the encoder absent,
    the list-formats action exits with code 1, so it is not true that every
    list-formats invocation exits with code 0. *)
Lemma list_formats_without_encoder :
  list_formats Demo.args_list_formats = true
  ∧ exit_code 2 Demo.args_list_formats Demo.no_encoder = 1
  ∧ ¬ (∀ (argc : nat) (args : Args) (w : Demo.world),
         list_formats args = true → exit_code argc args w = 0).
Proof.
  split_and!; [reflexivity | vm_compute; reflexivity |].
  intros Hall.
  specialize (Hall 2%nat Demo.args_list_formats Demo.no_encoder eq_refl).
  vm_compute in Hall. discriminate.
Qed.

(** C1 at concrete inputs: list-formats with and without the encoder. *)
Lemma list_formats_exit_code_witness :
  exit_code 2 Demo.args_list_formats Demo.music = 0
  ∧ (script 2 Demo.args_list_formats Demo.music).1.1
    = Banner :: Spawn ["ffmpeg"; "-version"] :: format_listing
  ∧ exit_code 2 Demo.args_list_formats Demo.no_encoder = 1.
Proof.
  destruct (list_formats_exit_code (W := Demo.world)) as (_ & Hfound & Hmissing).
  destruct (Hfound Demo.music 2%nat Demo.args_list_formats
              (Completed 0 "ffmpeg version 6.0" "") Demo.music) as [Hcode Htrace];
    [lia | reflexivity | reflexivity |].
  destruct (Hmissing Demo.no_encoder 2%nat Demo.args_list_formats
              (Exn FileNotFoundError "[Errno 2] No such file or directory: 'ffmpeg'")
              Demo.no_encoder) as [Hcode' _];
    [lia | reflexivity | reflexivity |].
  split_and!; [exact Hcode | by rewrite Htrace | exact Hcode'].
Defined.

(** C3 at a concrete input: the directory "music" of the example. *)
Lemma batch_skips_files_in_target_format_witness :
  ∃ t w', convert_folder "music" 5 "mp3" Demo.music = (t, w', Ret true)
          ∧ SummaryCounts 2 1 1 0 ∈ t
          ∧ spawned t = [["ffmpeg"; "-i"; "music/a.wav"; "-c:a"; "libmp3lame";
                          "-q:a"; "5"; "music/a.mp3"]].
Proof.
  destruct (batch_skips_files_in_target_format (W := Demo.world)) as (_ & _ & Hexample).
  edestruct (Hexample Demo.music "music" 5 ["a.wav"; "b.mp3"; "c.txt"])
    as (_ & _ & _ & t_loop & Hrun & Hspawn);
    [reflexivity | reflexivity | reflexivity | reflexivity | vm_compute; reflexivity
    | reflexivity |].
  eexists _, _. split; [exact Hrun|]. split.
  - apply elem_of_cons. right. apply elem_of_app. right.
    apply list_elem_of_In. cbn. tauto.
  - cbn [spawned]. rewrite spawned_app, Hspawn. vm_compute. reflexivity.
Defined.

(** C4 at concrete inputs. *)
Lemma target_format_resolution_witness :
  resolve_output_format (Some "MP3") (Some "out.flac") = Some ".mp3"
  ∧ resolve_output_format None (Some "out.FLAC") = Some ".flac"
  ∧ resolve_output_format None None = Some ".ogg"
  ∧ convert_file "music/a.wav" (Some "out") (Some 5) None Demo.music
    = ([Log ERROR "No output format specified in output filename."], Demo.music, Ret false)
  ∧ spawned (convert_file "music/a.wav" None (Some 5) (Some "mp3") Demo.music).1.1
    = [["ffmpeg"; "-i"; "music/a.wav"; "-c:a"; "libmp3lame"; "-q:a"; "5"; "music/a.mp3"]]
  ∧ spawned (convert_file "music/a.wav" (Some "out.flac") (Some 5) (Some "MP3")
               Demo.music).1.1
    = [["ffmpeg"; "-i"; "music/a.wav"; "-c:a"; "libmp3lame"; "-q:a"; "5"; "out.flac"]]
  ∧ spawned (convert_file "music/a.wav" (Some "out.FLAC") (Some 5) None Demo.music).1.1
    = [["ffmpeg"; "-i"; "music/a.wav"; "-c:a"; "flac"; "out.FLAC"]]
  ∧ spawned (convert_file "music/a.wav" None (Some 5) None Demo.music).1.1
    = [["ffmpeg"; "-i"; "music/a.wav"; "-c:a"; "libvorbis"; "-q:a"; "5"; "music/a.ogg"]].
Proof.
  destruct (target_format_resolution (W := Demo.world))
    as (Hfmt & Hext & Hdefault & Hnone & Hderived & Hcmd_fmt & Hcmd_ext & Hcmd_default).
  split_and!.
  - apply (Hfmt "MP3" (Some "out.flac")). discriminate.
  - apply (Hext None "out.FLAC"); [reflexivity | discriminate | vm_compute; discriminate].
  - apply (Hdefault None None); reflexivity.
  - apply (Hnone Demo.music "music/a.wav" "out" (Some 5) None);
      [reflexivity | reflexivity | discriminate | reflexivity].
  - apply (Hderived Demo.music "music/a.wav" (Some 5) (Some "mp3") ".mp3");
      reflexivity.
  - rewrite (Hcmd_fmt Demo.music "music/a.wav" (Some "out.flac") (Some 5) "MP3");
      [vm_compute; reflexivity | reflexivity | discriminate].
  - rewrite (Hcmd_ext Demo.music "music/a.wav" "out.FLAC" (Some 5) None);
      [vm_compute; reflexivity | reflexivity | reflexivity | discriminate
      | vm_compute; discriminate].
  - rewrite (Hcmd_default Demo.music "music/a.wav" None (Some 5) None);
      [vm_compute; reflexivity | reflexivity | reflexivity | reflexivity].
Defined.

(** C5, counterexample to the claim as stated: an error stream of two
    lines is printed in full. *)
Lemma short_error_stream_shown_in_full :
  let err := "Error opening input" +:+ nl +:+ "Conversion failed!" +:+ nl in
  let w := Demo.World ["music/a.wav"] [] (Some (1, err)) in
  PyStr.splitlines err = ["Error opening input"; "Conversion failed!"]
  ∧ convert_file "music/a.wav" None (Some 5) (Some "mp3") w
    = ([ Log INFO "Converting: a.wav -> a.mp3";
         PrintNoNl "[PROCESSING] ";
         Spawn ["ffmpeg"; "-i"; "music/a.wav"; "-c:a"; "libmp3lame"; "-q:a"; "5";
                "music/a.mp3"];
         PrintNoNl clear_line;
         Log ERROR "FFmpeg conversion failed for 'music/a.wav'";
         Log WARN "FFmpeg error details:";
         Print "  Error opening input";
         Print "  Conversion failed!" ],
       w, Ret false).
Proof. split; vm_compute; reflexivity. Qed.

(** C5 at a concrete input: seven lines of diagnostics, five shown. *)
Lemma encoder_failure_report_witness :
  (convert_file "music/a.wav" None (Some 8) (Some "ogg") Demo.failing_encoder).2
  = Ret false
  ∧ PyStr.last_n 5 (PyStr.splitlines Demo.seven_lines) = ["l3"; "l4"; "l5"; "l6"; "l7"].
Proof.
  destruct (encoder_failure_report Demo.failing_encoder "music/a.wav" None (Some 8)
              (Some "ogg") ".ogg" (Completed 1 "" Demo.seven_lines) Demo.failing_encoder)
    as (Hrun & _); [reflexivity | reflexivity | vm_compute; reflexivity | discriminate |].
  split; [by rewrite Hrun | reflexivity].
Defined.


(** C7 at a concrete input. *)
Lemma ogg_quality_substitution_witness :
  spawned (convert_file "music/a.wav" None (Some 8) (Some "ogg") Demo.music).1.1
  = [["ffmpeg"; "-i"; "music/a.wav"; "-c:a"; "libvorbis"; "-q:a"; "8"; "music/a.ogg"]].
Proof.
  destruct (ogg_quality_substitution (W := Demo.world)) as (_ & _ & _ & Hcmd).
  apply (Hcmd Demo.music "music/a.wav" None). reflexivity.
Defined.

(** C8 at a concrete input: a directory whose single candidate is in the
    target format already. *)
Lemma success_rate_guards_division_witness :
  ∃ t_loop,
    convert_folder "music" 5 "mp3"
      (Demo.World ["music/b.mp3"] [("music", ["b.mp3"])] (Some (0, "")))
    = (Log INFO "Found 1 potential audio files to convert."
         :: t_loop ++ [Print ""; SummaryCounts 1 0 1 0; SummaryRate 0],
       Demo.World ["music/b.mp3"] [("music", ["b.mp3"])] (Some (0, "")),
       Ret false).
Proof.
  destruct (success_rate_guards_division (W := Demo.world)) as (_ & _ & _ & Hrun).
  apply (Hrun (Demo.World ["music/b.mp3"] [("music", ["b.mp3"])] (Some (0, "")))
           "music" 5 "mp3" ["b.mp3"]);
    [reflexivity | reflexivity | vm_compute; discriminate |].
  vm_compute. repeat constructor.
Defined.

(** C9 at a concrete input: the output name says mp3, the codec is flac. *)
Lemma output_name_kept_codec_from_format_witness :
  spawned (convert_file "music/a.wav" (Some "out.mp3") (Some 5) (Some "flac") Demo.music).1.1
  = [["ffmpeg"; "-i"; "music/a.wav"; "-c:a"; "flac"; "out.mp3"]].
Proof.
  destruct (output_name_kept_codec_from_format Demo.music "music/a.wav" "out.mp3" "flac"
              (Some 5)) as [Hcmd _]; [discriminate | reflexivity |].
  rewrite Hcmd. vm_compute. reflexivity.
Defined.

(** C10 at concrete inputs: flac ignores the quality, mp3 does not. *)
Lemma quality_matters_only_for_mp3_ogg_witness :
  convert_file "music/a.wav" None (Some 0) (Some "flac") Demo.music
  = convert_file "music/a.wav" None (Some 10) (Some "flac") Demo.music
  ∧ codec_settings_for ".mp3" (Some 0) ≠ codec_settings_for ".mp3" (Some 10).
Proof.
  destruct (quality_matters_only_for_mp3_ogg (W := Demo.world))
    as (_ & _ & Hsame & Hdiffer).
  split.
  - apply (Hsame Demo.music "music/a.wav" None (Some "flac") ".flac" (Some 0) (Some 10));
      [reflexivity|].
    intros Hin. apply list_elem_of_In in Hin. vm_compute in Hin. intuition discriminate.
  - apply (Hdiffer ".mp3" 0 10); [|discriminate].
    apply list_elem_of_In. cbn. tauto.
Defined.

(** * Further properties of the code *)

(** ** convert_file: outcomes, commands, exceptions *)

Section SingleFileOutcomes.
Context {W : Type} `{!OS W}.
Implicit Types (w : W) (input_file : string) (output_file format : option string)
  (quality : option Z).

Lemma convert_file_not_found w input_file output_file quality format :
  os_path_isfile w input_file = false →
  convert_file input_file output_file quality format w
  = ([Log ERROR ("The file '" +:+ input_file +:+ "' does not exist.")], w, Ret false).
Proof. intros Hfile. unfold convert_file. step_M. by rewrite Hfile. Qed.

Lemma convert_file_no_format w input_file output_file quality format :
  os_path_isfile w input_file = true →
  resolve_output_format format output_file = None →
  convert_file input_file output_file quality format w
  = ([Log ERROR "No output format specified in output filename."], w, Ret false).
Proof. intros Hfile Hfmt. unfold convert_file. step_M. by rewrite Hfile, Hfmt. Qed.

(** X1. An [Exception] raised while the encoder is started or run (for
    example the executable is missing) does not leave [convert_file]: it
    is reported as "An error occurred: <message>" and the result is
    [False]. *)
Theorem convert_file_contains_exceptions w input_file output_file quality format
    output_format e w' :
  os_path_isfile w input_file = true →
  resolve_output_format format output_file = Some output_format →
  subprocess_run w (command_for input_file output_file quality output_format)
  = (Raise e, w') →
  is_Exception e = true →
  convert_file input_file output_file quality format w
  = (announce input_file (resolve_output_file input_file output_file output_format)
       (command_for input_file output_file quality output_format)
       ++ [ PrintNoNl clear_line; Log ERROR ("An error occurred: " +:+ message e) ],
     w', Ret false).
Proof.
  intros Hfile Hfmt Hrun Hexn.
  rewrite (convert_file_runs _ _ _ _ _ _ Hfile Hfmt). cbn zeta.
  unfold command_for in Hrun. by rewrite Hrun, Hexn.
Qed.


(** X3. [convert_file] returns [True] exactly when the input is a regular
    file, a target format could be resolved, and the encoder was started
    and exited with status 0. *)
Theorem convert_file_true_iff w input_file output_file quality format :
  (convert_file input_file output_file quality format w).2 = Ret true
  ↔ os_path_isfile w input_file = true
    ∧ ∃ output_format result w',
        resolve_output_format format output_file = Some output_format
        ∧ subprocess_run w (command_for input_file output_file quality output_format)
          = (Ret result, w')
        ∧ returncode result = 0.
Proof.
  destruct (os_path_isfile w input_file) eqn:Hfile.
  2: { rewrite (convert_file_not_found _ _ _ _ _ Hfile). split; [done|]. by intros [? _]. }
  destruct (resolve_output_format format output_file) as [output_format|] eqn:Hfmt.
  2: { rewrite (convert_file_no_format _ _ _ _ _ Hfile Hfmt).
       split; [done|]. by intros [_ (? & ? & ? & ? & _)]. }
  rewrite (convert_file_runs _ _ _ _ _ _ Hfile Hfmt). cbn zeta.
  fold (command_for input_file output_file quality output_format).
  split.
  - intros Hret. split; [done|].
    destruct (subprocess_run w _) as [[result|e] w'] eqn:Hrun.
    + destruct (returncode result =? 0) eqn:Hrc; [|done].
      exists output_format, result, w'. by apply Z.eqb_eq in Hrc.
    + by destruct (is_Exception e).
  - intros [_ (fmt & result & w' & [= <-] & Hrun & Hrc)].
    by rewrite Hrun, Hrc.
Qed.


(** Every result of the codec lookup is the default or a value of the table. *)
Lemma get_output_codec_range s :
  get_output_codec s ∈ ["-c:a"; "copy"] :: format_codec_entries.*2.
Proof.
  unfold get_output_codec, format_codec_map.
  destruct (list_to_map format_codec_entries !! PyStr.lower s) as [v|] eqn:Hlook.
  - apply elem_of_list_to_map_2 in Hlook. cbn [default].
    apply elem_of_cons. right.
    apply list_elem_of_fmap. by exists (PyStr.lower s, v).
  - cbn [default]. apply elem_of_cons. by left.
Qed.

(** The codec arguments always start with "-c:a" and the codec name, and
    carry at most one further flag with its value; the quality touches
    only that value. *)
Lemma codec_settings_form output_format quality :
  ∃ name extra extra0,
    codec_settings_for output_format quality = "-c:a" :: name :: extra
    ∧ get_output_codec output_format = "-c:a" :: name :: extra0
    ∧ length extra = length extra0
    ∧ (length extra = 0 ∨ length extra = 2)%nat.
Proof.
  unfold codec_settings_for.
  pose proof (get_output_codec_range output_format) as Hin.
  revert Hin. generalize (get_output_codec output_format). intros cs Hin.
  cbn [fmap list_fmap format_codec_entries snd] in Hin.
  repeat (apply elem_of_cons in Hin as [->|Hin];
          [destruct quality; eexists _, _, _;
           (split_and!; [reflexivity | reflexivity | reflexivity | cbn; lia])|]).
  by apply elem_of_nil in Hin.
Qed.

(** X5. Whatever the format and the quality, the codec arguments have
    the length of the table entry (2 or 4 tokens) and its first two
    tokens, "-c:a" and the codec name: the quality never changes which
    codec is used. *)
Theorem quality_keeps_codec output_format quality :
  length (codec_settings_for output_format quality) = length (get_output_codec output_format)
  ∧ take 2 (codec_settings_for output_format quality) = take 2 (get_output_codec output_format)
  ∧ (∃ name, take 2 (get_output_codec output_format) = ["-c:a"; name])
  ∧ (length (get_output_codec output_format) = 2
     ∨ length (get_output_codec output_format) = 4)%nat.
Proof.
  destruct (codec_settings_form output_format quality)
    as (name & extra & extra0 & -> & -> & Hlen & Hcases).
  split_and!.
  - cbn [length]. lia.
  - reflexivity.
  - by exists name.
  - cbn [length]. lia.
Qed.

Lemma convert_file_spawned_cases w input_file output_file quality format :
  spawned (convert_file input_file output_file quality format w).1.1 = []
  ∨ ∃ output_format,
      resolve_output_format format output_file = Some output_format
      ∧ spawned (convert_file input_file output_file quality format w).1.1
        = [command_for input_file output_file quality output_format].
Proof.
  destruct (os_path_isfile w input_file) eqn:Hfile;
    [|rewrite (convert_file_not_found _ _ _ _ _ Hfile); by left].
  destruct (resolve_output_format format output_file) as [output_format|] eqn:Hfmt;
    [|rewrite (convert_file_no_format _ _ _ _ _ Hfile Hfmt); by left].
  right. exists output_format. split; [done|].
  apply (convert_file_spawned w _ _ quality _ _ Hfile Hfmt).
Qed.

(** X6. Every command [convert_file] issues is an argument list of the
    form ffmpeg -i <input> -c:a <codec> [<flag> <value>] <output>: the
    input path is the third argument exactly as passed in, an output name
    given by the caller is the last argument exactly as passed in, and
    there are six or eight arguments. *)
Theorem convert_file_command_shape w input_file output_file quality format cmd :
  cmd ∈ spawned (convert_file input_file output_file quality format w).1.1 →
  ∃ name extra out,
    cmd = ["ffmpeg"; "-i"; input_file; "-c:a"; name] ++ extra ++ [out]
    ∧ (length extra = 0 ∨ length extra = 2)%nat
    ∧ (length cmd = 6 ∨ length cmd = 8)%nat
    ∧ (∀ o, output_file = Some o → out = o).
Proof.
  destruct (convert_file_spawned_cases w input_file output_file quality format)
    as [-> | (output_format & Hfmt & ->)].
  - intros Hin. by apply elem_of_nil in Hin.
  - intros Hin. apply elem_of_cons in Hin as [-> | Hin]; [|by apply elem_of_nil in Hin].
    destruct (codec_settings_form output_format quality)
      as (name & extra & extra0 & Hcodec & _ & _ & Hlen).
    exists name, extra, (resolve_output_file input_file output_file output_format).
    unfold command_for, ffmpeg_cmd. rewrite Hcodec.
    split_and!.
    + reflexivity.
    + exact Hlen.
    + cbn [app length]. rewrite length_app. cbn [length]. lia.
    + by intros o ->.
Qed.

(** X7. [get_ffmpeg_formats] starts the one command ffmpeg -formats. It
    returns the captured standard output whenever the command could be
    started, whatever its exit status, and [None] when starting it raised
    an [Exception]; only an exception that is not an [Exception] leaves it. *)
Theorem get_ffmpeg_formats_outcomes w :
  let '(t, w', r) := get_ffmpeg_formats w in
  t = [Spawn ["ffmpeg"; "-formats"]]
  ∧ w' = (subprocess_run w ["ffmpeg"; "-formats"]).2
  ∧ (∀ result, (subprocess_run w ["ffmpeg"; "-formats"]).1 = Ret result →
       r = Ret (Some (stdout result)))
  ∧ (∀ e, (subprocess_run w ["ffmpeg"; "-formats"]).1 = Raise e →
       r = if is_Exception e then Ret None else Raise e).
Proof.
  unfold get_ffmpeg_formats. step_M.
  destruct (subprocess_run w ["ffmpeg"; "-formats"]) as [[result|e] w1]; reduce_M.
  - split_and!; [done | done | by intros ? [= ->] | done].
  - destruct (is_Exception e) eqn:Hexn; reduce_M;
      (split_and!; [done | done | done | intros ? [= <-]; by rewrite Hexn]).
Qed.

End SingleFileOutcomes.

(** ** convert_folder: refusals, candidates, counters *)

Section BatchOutcomes.
Context {W : Type} `{!OS W}.
Implicit Types (w : W) (c : counters).

(** X8. A path that is not a directory is refused: one error line,
    result [False]; the directory is not listed and no command is
    started. *)
Theorem convert_folder_not_a_directory w folder_path quality format :
  os_path_isdir w folder_path = false →
  convert_folder folder_path quality format w
  = ([Log ERROR ("The folder '" +:+ folder_path +:+ "' does not exist.")], w, Ret false).
Proof. intros Hdir. unfold convert_folder. step_M. by rewrite Hdir. Qed.

(** X9. A directory without candidates (empty, or holding only names
    without extension or with a non-audio extension) gives one warning and
    the result [False]: no "found" line, no command, no summary. *)
Theorem convert_folder_no_candidates w folder_path quality format all_files :
  os_path_isdir w folder_path = true →
  os_listdir w folder_path = Ret all_files →
  candidates all_files = [] →
  convert_folder folder_path quality format w
  = ([Log WARN ("No potential audio files found in '" +:+ folder_path +:+ "'.")],
     w, Ret false).
Proof.
  intros Hdir Hlist Hnone. unfold convert_folder. step_M.
  rewrite Hdir. reduce_M. rewrite Hlist. reduce_M.
  fold (candidates all_files). by rewrite Hnone.
Qed.

(** X10. An exception of [os.listdir] (for example a directory that may
    not be read) is not handled: it leaves [convert_folder] with nothing
    printed. *)
Theorem convert_folder_listing_error w folder_path quality format e :
  os_path_isdir w folder_path = true →
  os_listdir w folder_path = Raise e →
  convert_folder folder_path quality format w = ([], w, Raise e).
Proof.
  intros Hdir Hlist. unfold convert_folder. step_M.
  rewrite Hdir. reduce_M. by rewrite Hlist.
Qed.

Lemma allow_deny_disjoint ext :
  ext ∈ COMMON_AUDIO_FORMATS → ext ∉ NON_AUDIO_EXTENSIONS.
Proof.
  unfold COMMON_AUDIO_FORMATS. intros Hin Hdeny.
  apply list_elem_of_In in Hdeny.
  repeat (apply elem_of_cons in Hin as [->|Hin];
          [vm_compute in Hdeny; intuition discriminate|]).
  by apply elem_of_nil in Hin.
Qed.

(** X11. A directory entry is a candidate exactly when it has an
    extension and the lower-cased extension is not one of the eight
    non-audio ones. The list of known audio extensions has no influence:
    none of its members is a non-audio extension. *)
Theorem likely_audio_iff filename :
  likely_audio filename = true
  ↔ (OsPath.splitext filename).2 ≠ ""
    ∧ PyStr.lower (OsPath.splitext filename).2 ∉ NON_AUDIO_EXTENSIONS.
Proof.
  unfold likely_audio. cbn zeta.
  assert (PyStr.lower (OsPath.splitext filename).2 = ""
          ↔ (OsPath.splitext filename).2 = "") as Hempty.
  { destruct (OsPath.splitext filename).2; [done|]. split; discriminate. }
  rewrite <- Hempty.
  destruct (String.eqb_spec (PyStr.lower (OsPath.splitext filename).2) "") as [Heq|Hne].
  - cbn. split; [done|]. by intros [? _].
  - cbn [negb andb].
    destruct (decide (PyStr.lower (OsPath.splitext filename).2 ∈ NON_AUDIO_EXTENSIONS))
      as [Hdeny|Hok].
    + rewrite (bool_decide_eq_true_2 _ Hdeny). cbn [negb].
      rewrite orb_false_r. rewrite bool_decide_eq_true.
      split; [|by intros [_ ?]].
      intros Hallow. by apply allow_deny_disjoint in Hallow.
    + rewrite (bool_decide_eq_false_2 _ Hok). cbn [negb].
      rewrite orb_true_r. by split.
Qed.

Lemma filter_split_length (P : string → bool) (l : list string) :
  (length (filter (λ f, P f = true) l) + length (filter (λ f, P f = false) l)
   = length l)%nat.
Proof.
  induction l as [|x l IH]; [reflexivity|].
  rewrite !filter_cons. destruct (P x) eqn:HP.
  - rewrite decide_True by done. rewrite decide_False by done. cbn [length]. lia.
  - rewrite decide_False by done. rewrite decide_True by done. cbn [length]. lia.
Qed.

(** An iteration for a candidate not yet in the target format that
    returns has counted one success or one failure. *)
Lemma convert_folder_step_other_cases w folder_path quality format output_format
    total_files i filename c t w' c' :
  already_target output_format filename = false →
  convert_folder_step folder_path quality format output_format total_files i filename c w
  = (t, w', Ret c') →
  c' = Counters (success_count c + 1) (skip_count c) (fail_count c)
  ∨ c' = Counters (success_count c) (skip_count c) (fail_count c + 1).
Proof.
  intros Hskip. unfold convert_folder_step. rewrite Hskip. step_M.
  destruct (PyNum.percent_of i total_files) as [percent|e]; reduce_M; [|discriminate].
  destruct (convert_file _ _ _ _ w) as [[t1 w1] [[]|e]]; reduce_M;
    intros [= <- <- <-]; auto.
Qed.

(** No counter ever decreases in the loop. *)
Lemma convert_folder_loop_monotone folder_path quality format output_format total_files
    audio_files : ∀ i c w t w' c',
  convert_folder_loop folder_path quality format output_format total_files
    i audio_files c w = (t, w', Ret c') →
  success_count c ≤ success_count c'
  ∧ skip_count c ≤ skip_count c'
  ∧ fail_count c ≤ fail_count c'.
Proof.
  induction audio_files as [|filename rest IH]; intros i c w t w' c'.
  - intros [= <- <- <-]. lia.
  - cbn [convert_folder_loop]. unfold mbind at 1, M_bind at 1.
    destruct (convert_folder_step _ _ _ _ _ i filename c w) as [[t1 w1] [c1|e]] eqn:Hstep;
      [|discriminate].
    destruct (convert_folder_loop _ _ _ _ _ (i + 1) rest c1 w1) as [[t2 w2] r2] eqn:Hloop.
    intros [= <- <- ->]. apply IH in Hloop.
    destruct (already_target output_format filename) eqn:Hskip.
    + rewrite (convert_folder_step_skip _ _ _ _ _ _ _ _ _ Hskip) in Hstep.
      injection Hstep as <- <- <-. cbn [skip_count success_count fail_count] in *. lia.
    + apply (convert_folder_step_other_cases _ _ _ _ _ _ _ _ _ _ _ _ Hskip) in Hstep
        as [-> | ->]; cbn [skip_count success_count fail_count] in *; lia.
Qed.

(** X12. In a batch run that returns, the three counters of the summary
    are non-negative and add up to the number of candidates: every
    candidate is counted exactly once, as converted, skipped or failed,
    so a failure never ends the loop early. The result is [True] exactly
    when at least one file was converted. *)
Theorem convert_folder_accounts_for_every_candidate w folder_path quality format all_files
    t w' b :
  os_path_isdir w folder_path = true →
  os_listdir w folder_path = Ret all_files →
  candidates all_files ≠ [] →
  convert_folder folder_path quality format w = (t, w', Ret b) →
  ∃ t_loop converted skipped failed rate,
    t = Log INFO ("Found " +:+ pretty (Z.of_nat (length (candidates all_files)))
                  +:+ " potential audio files to convert.")
        :: t_loop
        ++ [ Print "";
             SummaryCounts (Z.of_nat (length (candidates all_files)))
               converted skipped failed;
             SummaryRate rate ]
    ∧ converted + skipped + failed = Z.of_nat (length (candidates all_files))
    ∧ 0 ≤ converted ∧ 0 ≤ skipped ∧ 0 ≤ failed
    ∧ b = bool_decide (0 < converted).
Proof.
  intros Hdir Hlist Hne Hrun.
  destruct (convert_folder_returns _ _ _ _ _ _ _ _ Hdir Hlist Hne Hrun)
    as (t_loop & c & rate & Hloop & _ & -> & ->).
  pose proof (convert_folder_loop_counts _ _ _ _ _ _ _ _ _ _ _ _ Hloop) as [Hskip Hrest].
  pose proof (convert_folder_loop_monotone _ _ _ _ _ _ _ _ _ _ _ _ Hloop) as (Hs & Hk & Hf).
  pose proof (filter_split_length (already_target ("." +:+ PyStr.lower format))
                (candidates all_files)) as Hsplit.
  cbn [success_count skip_count fail_count] in *.
  exists t_loop, (success_count c), (skip_count c), (fail_count c), rate.
  split_and!; [reflexivity | lia | lia | lia | lia |].
  destruct (0 <? success_count c) eqn:Hpos.
  - apply Z.ltb_lt in Hpos. by rewrite bool_decide_eq_true_2.
  - apply Z.ltb_ge in Hpos. rewrite bool_decide_eq_false_2; [done | lia].
Qed.

(** X13. The file a batch conversion writes is named so that a later
    batch run with the same target format skips it: its name ends, in
    lower case, in the dot-prefixed target format. *)
Theorem batch_output_is_skipped_later w folder_path quality format total_files i filename c :
  let produced := (OsPath.splitext filename).1 +:+ ("." +:+ PyStr.lower format) in
  already_target ("." +:+ PyStr.lower format) produced = true
  ∧ convert_folder_step folder_path quality format ("." +:+ PyStr.lower format)
      total_files i produced c w
    = ([Log INFO (progress_tag i total_files +:+ " Skipping: " +:+ produced
                  +:+ " (already in target format)")],
       w, Ret (Counters (success_count c) (skip_count c + 1) (fail_count c))).
Proof.
  intros produced.
  assert (already_target ("." +:+ PyStr.lower format) produced = true) as Hskip.
  { pose proof (already_target_name_suffix (PyStr.lower format)
                  (OsPath.splitext filename).1) as Hsuffix.
    by rewrite lower_idemp in Hsuffix. }
  split; [exact Hskip|]. by apply convert_folder_step_skip.
Qed.

(** The commands of one iteration: none for a candidate in the target
    format, at most the batch command otherwise. *)
Lemma convert_folder_step_spawned w folder_path quality format total_files i filename c :
  format ≠ "" →
  spawned (convert_folder_step folder_path quality format ("." +:+ PyStr.lower format)
             total_files i filename c w).1.1
  `sublist_of` batch_command folder_path quality format <$> to_convert format [filename].
Proof.
  intros Hfmt. unfold to_convert. rewrite filter_cons, filter_nil.
  destruct (already_target ("." +:+ PyStr.lower format) filename) eqn:Hskip.
  - rewrite (convert_folder_step_skip _ _ _ _ _ _ _ _ _ Hskip).
    apply sublist_nil_l.
  - rewrite decide_True by done. cbn [fmap list_fmap].
    unfold convert_folder_step. rewrite Hskip. step_M.
    destruct (PyNum.percent_of i total_files) as [percent|e]; reduce_M;
      [|apply sublist_nil_l].
    pose proof (convert_file_spawned_cases w (OsPath.join folder_path filename)
                  (Some (OsPath.join folder_path
                           ((OsPath.splitext filename).1 +:+ ("." +:+ PyStr.lower format))))
                  (Some quality) (Some format)) as Hcases.
    destruct (convert_file _ _ _ _ w) as [[t1 w1] r1]. cbn [fst snd] in Hcases.
    assert (∀ t2 : list event,
              spawned (Log INFO (progress_tag i total_files +:+ " (" +:+ pretty percent
                                 +:+ "%) Processing: " +:+ filename) :: t1 ++ t2)
              = spawned t1 ++ spawned t2) as Hlog
      by (intros t2; cbn [spawned]; apply spawned_app).
    assert (spawned (Log INFO (progress_tag i total_files +:+ " (" +:+ pretty percent
                               +:+ "%) Processing: " +:+ filename) :: t1)
            = spawned t1) as Hlog' by reflexivity.
    destruct Hcases as [Hnone | (output_format & Hres & Hone)].
    + destruct r1 as [[]|e]; reduce_M; rewrite ?Hlog, ?Hlog', Hnone;
        apply sublist_nil_l.
    + rewrite (resolve_format_override _ _ Hfmt) in Hres. injection Hres as <-.
      destruct r1 as [[]|e]; reduce_M; rewrite ?Hlog, ?Hlog', Hone; reflexivity.
Qed.

Lemma to_convert_cons format filename rest :
  to_convert format (filename :: rest)
  = to_convert format [filename] ++ to_convert format rest.
Proof.
  unfold to_convert. rewrite !filter_cons, filter_nil.
  by destruct (decide (already_target ("." +:+ PyStr.lower format) filename = false)).
Qed.

Lemma convert_folder_loop_spawned folder_path quality format total_files audio_files :
  format ≠ "" → ∀ i c w,
  spawned (convert_folder_loop folder_path quality format ("." +:+ PyStr.lower format)
             total_files i audio_files c w).1.1
  `sublist_of` batch_command folder_path quality format <$> to_convert format audio_files.
Proof.
  intros Hfmt. induction audio_files as [|filename rest IH]; intros i c w.
  - apply sublist_nil_l.
  - cbn [convert_folder_loop]. unfold mbind at 1, M_bind at 1.
    pose proof (convert_folder_step_spawned w folder_path quality format total_files
                  i filename c Hfmt) as Hstep.
    rewrite to_convert_cons, fmap_app.
    destruct (convert_folder_step _ _ _ _ _ i filename c w) as [[t1 w1] [c1|e]].
    + specialize (IH (i + 1) c1 w1).
      destruct (convert_folder_loop _ _ _ _ _ (i + 1) rest c1 w1) as [[t2 w2] r2].
      cbn [fst snd] in *. rewrite spawned_app. by apply sublist_app.
    + cbn [fst snd] in *. etrans; [exact Hstep|]. apply sublist_inserts_r. reflexivity.
Qed.

(** X14. A batch run starts commands only for candidates that are not in
    the target format yet: at most one each, in listing order, all with
    the codec arguments of the requested format and quality, reading the
    entry from the folder and writing next to it under the entry's stem
    with the target extension. *)
Theorem convert_folder_commands w folder_path quality format all_files :
  format ≠ "" →
  os_listdir w folder_path = Ret all_files →
  spawned (convert_folder folder_path quality format w).1.1
  `sublist_of` batch_command folder_path quality format
               <$> to_convert format (candidates all_files).
Proof.
  intros Hfmt Hlist. unfold convert_folder, print_summary. step_M.
  destruct (os_path_isdir w folder_path); reduce_M; [|apply sublist_nil_l].
  rewrite Hlist. reduce_M. fold (candidates all_files).
  destruct (Z.of_nat (length (candidates all_files)) =? 0); reduce_M;
    [apply sublist_nil_l|].
  pose proof (convert_folder_loop_spawned folder_path quality format
                (Z.of_nat (length (candidates all_files))) (candidates all_files)
                Hfmt 0 (Counters 0 0 0) w) as Hloop.
  destruct (convert_folder_loop _ _ _ _ _ 0 (candidates all_files) _ w)
    as [[t_loop w1] [c|e]]; reduce_M; cbn [fst snd spawned] in *; [|exact Hloop].
  destruct (success_rate _ _ _) as [rate|e]; reduce_M; cbn [spawned];
    rewrite spawned_app; cbn [spawned]; by rewrite app_nil_r.
Qed.

Lemma convert_file_world_cases w input_file output_file quality format :
  (convert_file input_file output_file quality format w).1.2 = w
  ∨ ∃ cmd, (convert_file input_file output_file quality format w).1.2
           = (subprocess_run w cmd).2.
Proof.
  destruct (os_path_isfile w input_file) eqn:Hfile;
    [|rewrite (convert_file_not_found _ _ _ _ _ Hfile); by left].
  destruct (resolve_output_format format output_file) as [output_format|] eqn:Hfmt;
    [|rewrite (convert_file_no_format _ _ _ _ _ Hfile Hfmt); by left].
  right. exists (command_for input_file output_file quality output_format).
  rewrite (convert_file_runs _ _ _ _ _ _ Hfile Hfmt). cbn zeta.
  fold (command_for input_file output_file quality output_format).
  destruct (subprocess_run w _) as [[result|e] w']; cbn [snd].
  - by destruct (returncode result =? 0).
  - by destruct (is_Exception e).
Qed.

(** What an iteration that converts and returns consists of. *)
Lemma convert_folder_step_other_inv w folder_path quality format output_format total_files
    i filename c t w' c' :
  already_target output_format filename = false →
  convert_folder_step folder_path quality format output_format total_files i filename c w
  = (t, w', Ret c') →
  ∃ (percent : Z) t1 (ok : bool),
    convert_file (OsPath.join folder_path filename)
      (Some (OsPath.join folder_path ((OsPath.splitext filename).1 +:+ output_format)))
      (Some quality) (Some format) w = (t1, w', Ret ok)
    ∧ t = Log INFO (progress_tag i total_files +:+ " (" +:+ pretty percent
                    +:+ "%) Processing: " +:+ filename) :: t1.
Proof.
  intros Hskip. unfold convert_folder_step. rewrite Hskip. step_M.
  destruct (PyNum.percent_of i total_files) as [percent|e]; reduce_M; [|discriminate].
  destruct (convert_file _ _ _ _ w) as [[t1 w1] [ok|e]]; reduce_M; [|discriminate].
  destruct ok; reduce_M; intros [= <- <- <-]; exists percent, t1; eexists;
    rewrite app_nil_r; done.
Qed.

Section FilesStay.
(** The encoder does not remove files. *)
Hypothesis files_stay : ∀ w cmd p,
  os_path_isfile w p = true → os_path_isfile (subprocess_run w cmd).2 p = true.

Lemma convert_folder_loop_attempts folder_path quality format total_files audio_files :
  format ≠ "" → ∀ i c w t w' c',
  Forall (λ f, os_path_isfile w (OsPath.join folder_path f) = true)
    (to_convert format audio_files) →
  convert_folder_loop folder_path quality format ("." +:+ PyStr.lower format)
    total_files i audio_files c w = (t, w', Ret c') →
  spawned t = batch_command folder_path quality format <$> to_convert format audio_files.
Proof.
  intros Hfmt. induction audio_files as [|filename rest IH]; intros i c w t w' c' Hfiles.
  - by intros [= <- <- <-].
  - cbn [convert_folder_loop]. unfold mbind at 1, M_bind at 1.
    destruct (convert_folder_step _ _ _ _ _ i filename c w) as [[t1 w1] [c1|e]] eqn:Hstep;
      [|discriminate].
    destruct (convert_folder_loop _ _ _ _ _ (i + 1) rest c1 w1) as [[t2 w2] r2] eqn:Hloop.
    intros [= <- <- ->]. rewrite spawned_app.
    rewrite to_convert_cons in Hfiles |- *. rewrite fmap_app.
    apply Forall_app in Hfiles as [Hfile Hrest].
    unfold to_convert in Hfile |- * at 1. rewrite filter_cons, filter_nil in Hfile |- *.
    destruct (already_target ("." +:+ PyStr.lower format) filename) eqn:Hskip.
    + rewrite (convert_folder_step_skip _ _ _ _ _ _ _ _ _ Hskip) in Hstep.
      injection Hstep as <- <- <-.
      rewrite decide_False by done. cbn [spawned fmap list_fmap app].
      by apply (IH _ _ _ _ _ _ Hrest Hloop).
    + rewrite decide_True in Hfile |- * by done. cbn [fmap list_fmap].
      apply Forall_cons in Hfile as [Hfile _].
      apply (convert_folder_step_other_inv _ _ _ _ _ _ _ _ _ _ _ _ Hskip) in Hstep
        as (percent & t1' & ok & Hconv & ->).
      pose proof (convert_file_spawned w _
                    (Some (OsPath.join folder_path
                             ((OsPath.splitext filename).1
                              +:+ ("." +:+ PyStr.lower format))))
                    (Some quality) (Some format) _ Hfile
                    (resolve_format_override format _ Hfmt)) as Hone.
      pose proof (convert_file_world_cases w (OsPath.join folder_path filename)
                    (Some (OsPath.join folder_path
                             ((OsPath.splitext filename).1
                              +:+ ("." +:+ PyStr.lower format))))
                    (Some quality) (Some format)) as Hworld.
      rewrite Hconv in Hone, Hworld. cbn [fst snd] in Hone, Hworld.
      assert (Forall (λ f, os_path_isfile w1 (OsPath.join folder_path f) = true)
                (to_convert format rest)) as Hrest1.
      { eapply Forall_impl; [exact Hrest|]. intros f Hf. cbn beta in *.
        destruct Hworld as [-> | (cmd & ->)]; [exact Hf | by apply files_stay]. }
      cbn [spawned]. rewrite Hone. f_equal.
      apply (IH _ _ _ _ _ _ Hrest1 Hloop).
Qed.

(** X15. Best effort: if the encoder never removes files, and every
    candidate that is not in the target format is a regular file when the
    run starts, then a batch run that returns has started exactly one
    command for each of these candidates, in listing order, whether or
    not the earlier ones succeeded. *)
Theorem convert_folder_attempts_every_candidate w folder_path quality format all_files
    t w' b :
  format ≠ "" →
  os_path_isdir w folder_path = true →
  os_listdir w folder_path = Ret all_files →
  Forall (λ f, os_path_isfile w (OsPath.join folder_path f) = true)
    (to_convert format (candidates all_files)) →
  convert_folder folder_path quality format w = (t, w', Ret b) →
  spawned t
  = batch_command folder_path quality format <$> to_convert format (candidates all_files).
Proof.
  intros Hfmt Hdir Hlist Hfiles Hrun.
  destruct (decide (candidates all_files = [])) as [Hnone|Hne].
  - rewrite Hnone. revert Hrun. unfold convert_folder. step_M.
    rewrite Hdir. reduce_M. rewrite Hlist. reduce_M.
    fold (candidates all_files). rewrite Hnone. by intros [= <- <- <-].
  - destruct (convert_folder_returns _ _ _ _ _ _ _ _ Hdir Hlist Hne Hrun)
      as (t_loop & c & rate & Hloop & _ & -> & _).
    cbn [spawned]. rewrite spawned_app. cbn [spawned]. rewrite app_nil_r.
    by apply (convert_folder_loop_attempts _ _ _ _ _ Hfmt _ _ _ _ _ _ Hfiles Hloop).
Qed.

End FilesStay.

End BatchOutcomes.

(** ** main and the script entry: exit codes *)

Section FrontEndOutcomes.
Context {W : Type} `{!OS W}.
Implicit Types (w : W) (args : Args).

(** X16. When the probe cannot start the encoder, the script ends with
    status 1 whatever the arguments are, and nothing but the probe has
    been run: a missing executable gives the two "not installed" lines, a
    keyboard interrupt the "cancelled" line, and any other exception
    leaves [main] unreported. *)
Theorem failed_probe_ends_script w argc args e w1 :
  argc ≠ 1%nat →
  subprocess_run w probe_cmd = (Raise e, w1) →
  script argc args w
  = (Banner :: Spawn probe_cmd
       :: match kind e with
          | FileNotFoundError =>
              [ Log ERROR "FFmpeg is not installed or not in the system PATH.";
                Log INFO "Please install FFmpeg to use this converter: https://ffmpeg.org/download.html" ]
          | KeyboardInterrupt => [Print nl; Log INFO "Operation cancelled by user."]
          | _ => []
          end,
     w1, 1).
Proof.
  intros Hargc Hprobe. unfold script, main. step_M.
  rewrite (proj2 (Nat.eqb_neq argc 1) Hargc). reduce_M.
  unfold probe_cmd in Hprobe. rewrite Hprobe. reduce_M.
  unfold is_FileNotFoundError.
  destruct e as [k msg]; destruct k; reflexivity.
Qed.

(** X17. With the encoder present, no list-formats request and neither
    a file nor a directory (absent or empty), the script prints the
    "No input specified" error and ends with status 1. *)
Theorem no_input_is_refused w argc args probe w1 :
  argc ≠ 1%nat →
  subprocess_run w probe_cmd = (Ret probe, w1) →
  list_formats args = false →
  truthy (file args) = false →
  truthy (directory args) = false →
  script argc args w
  = ([ Banner; Spawn probe_cmd;
       Log ERROR "No input specified. Use -f/--file or -d/--directory to specify input." ],
     w1, 1).
Proof.
  intros Hargc Hprobe Hlist Hfile Hdir. unfold script, main. step_M.
  rewrite (proj2 (Nat.eqb_neq argc 1) Hargc). reduce_M.
  unfold probe_cmd in Hprobe. rewrite Hprobe. reduce_M.
  rewrite Hlist, Hfile, Hdir. reflexivity.
Qed.

(** What [main] does in file mode once the probe has succeeded. *)
Lemma main_file_mode w argc args probe w1 input :
  argc ≠ 1%nat →
  subprocess_run w probe_cmd = (Ret probe, w1) →
  list_formats args = false →
  file args = Some input → input ≠ "" →
  main argc args w
  = match convert_file input (front_end_output args) (Some (quality args))
            (Some (format args)) w1 with
    | (t, w2, Ret ok) =>
        (Banner :: Spawn probe_cmd :: t
           ++ [ Print "";
                if ok : bool
                then Log SUCCESS "File conversion completed successfully!"
                else Log ERROR "File conversion failed." ],
         w2, Ret (if ok then 0 else 1))
    | (t, w2, Raise e) => (Banner :: Spawn probe_cmd :: t, w2, Raise e)
    end.
Proof.
  intros Hargc Hprobe Hlist Hfile Hinput. unfold main. step_M.
  rewrite (proj2 (Nat.eqb_neq argc 1) Hargc). reduce_M.
  unfold probe_cmd in Hprobe. rewrite Hprobe. reduce_M.
  rewrite Hlist, Hfile. destruct input as [|ch input]; [done|].
  cbn [truthy negb andb]. fold (front_end_output args).
  destruct (convert_file _ _ _ _ w1) as [[t w2] [ok|e]]; reduce_M; [|reflexivity].
  destruct ok; reduce_M; by rewrite app_nil_r.
Qed.

(** X18. In file mode the codec is always chosen from the format
    argument (default "ogg"), never from the extension of the output name:
    with a non-empty format and an existing input, the one conversion
    command is ffmpeg -i <file> <codec arguments of the format> <output>,
    and the script ends with status 0 exactly when that command could be
    run and exited with 0. *)
Theorem file_mode_codec_from_format w argc args probe w1 input :
  argc ≠ 1%nat →
  subprocess_run w probe_cmd = (Ret probe, w1) →
  list_formats args = false →
  file args = Some input → input ≠ "" →
  format args ≠ "" →
  os_path_isfile w1 input = true →
  let cmd := command_for input (front_end_output args) (Some (quality args))
               ("." +:+ PyStr.lower (format args)) in
  spawned (script argc args w).1.1 = [probe_cmd; cmd]
  ∧ (exit_code argc args w = 0
     ↔ ∃ result w2, subprocess_run w1 cmd = (Ret result, w2) ∧ returncode result = 0).
Proof.
  intros Hargc Hprobe Hlist Hfile Hinput Hfmt Hisfile cmd.
  unfold exit_code, script.
  rewrite (main_file_mode _ _ _ _ _ _ Hargc Hprobe Hlist Hfile Hinput).
  rewrite (convert_file_runs _ _ _ _ _ _ Hisfile (resolve_format_override _ _ Hfmt)).
  cbn zeta. fold (command_for input (front_end_output args) (Some (quality args))
                    ("." +:+ PyStr.lower (format args))). fold cmd.
  destruct (subprocess_run w1 cmd) as [[result|e] w2].
  - destruct (returncode result =? 0) eqn:Hrc; cbn [fst snd spawned];
      rewrite !spawned_app, ?spawned_prints; cbn [spawned app]; (split; [reflexivity|]).
    + split; [|done]. intros _. exists result, w2. by apply Z.eqb_eq in Hrc.
    + split; [done|]. intros (? & ? & [= <- <-] & Hzero). by rewrite Hzero in Hrc.
  - destruct (is_Exception e); cbn [fst snd spawned].
    + rewrite !spawned_app. cbn [spawned app]. split; [reflexivity|].
      split; [done|]. by intros (? & ? & ? & _).
    + destruct (kind e); cbn [fst snd spawned]; rewrite ?spawned_app;
        (split; [reflexivity|]); (split; [done|]); by intros (? & ? & ? & _).
Qed.

(** What [main] does in directory mode once the probe has succeeded. *)
Lemma main_directory_mode w argc args probe w1 folder_path :
  argc ≠ 1%nat →
  subprocess_run w probe_cmd = (Ret probe, w1) →
  list_formats args = false →
  truthy (file args) = false →
  directory args = Some folder_path → folder_path ≠ "" →
  main argc args w
  = match convert_folder folder_path (quality args) (format args) w1 with
    | (t, w2, Ret ok) =>
        (Banner :: Spawn probe_cmd :: t, w2, Ret (if ok : bool then 0 else 1))
    | (t, w2, Raise e) => (Banner :: Spawn probe_cmd :: t, w2, Raise e)
    end.
Proof.
  intros Hargc Hprobe Hlist Hfile Hdir Hfolder. unfold main. step_M.
  rewrite (proj2 (Nat.eqb_neq argc 1) Hargc). reduce_M.
  unfold probe_cmd in Hprobe. rewrite Hprobe. reduce_M.
  rewrite Hlist, Hfile, Hdir. destruct folder_path as [|ch folder_path]; [done|].
  cbn [truthy negb andb default].
  destruct (file args) as [[|]|]; [|done|];
    (destruct (convert_folder _ _ _ w1) as [[t w2] [ok|e]]; reduce_M;
     by rewrite ?app_nil_r).
Qed.

(** X19. A directory run in which every candidate is in the target
    format already starts no conversion, reports rate 0, and makes the
    script end with status 1, although nothing has failed. *)
Theorem all_skipped_directory_exits_1 w argc args probe w1 folder_path all_files :
  argc ≠ 1%nat →
  subprocess_run w probe_cmd = (Ret probe, w1) →
  list_formats args = false →
  truthy (file args) = false →
  directory args = Some folder_path → folder_path ≠ "" →
  os_path_isdir w1 folder_path = true →
  os_listdir w1 folder_path = Ret all_files →
  candidates all_files ≠ [] →
  to_convert (format args) (candidates all_files) = [] →
  exit_code argc args w = 1
  ∧ spawned (script argc args w).1.1 = [probe_cmd]
  ∧ SummaryCounts (Z.of_nat (length (candidates all_files))) 0
      (Z.of_nat (length (candidates all_files))) 0
    ∈ (script argc args w).1.1.
Proof.
  intros Hargc Hprobe Hlist Hfile Hdir Hfolder Hisdir Hlisting Hne Hnone.
  assert (Forall (λ f, already_target ("." +:+ PyStr.lower (format args)) f = true)
            (candidates all_files)) as Hall.
  { apply Forall_forall. intros f Hf.
    destruct (already_target _ f) eqn:Hskip; [done|].
    assert (f ∈ to_convert (format args) (candidates all_files)) as Hin
      by (by apply list_elem_of_filter).
    rewrite Hnone in Hin. by apply elem_of_nil in Hin. }
  destruct (convert_folder_loop_all_skipped folder_path (quality args) (format args)
              ("." +:+ PyStr.lower (format args))
              (Z.of_nat (length (candidates all_files))) (candidates all_files)
              0 (Counters 0 0 0) w1 Hall) as (t_loop & Hloop & Hquiet).
  assert (success_rate 0 (Z.of_nat (length (candidates all_files)))
            (0 + Z.of_nat (length (candidates all_files))) = Ret 0) as Hrate.
  { unfold success_rate. by rewrite Z.add_0_l, Z.sub_diag. }
  pose proof (convert_folder_runs w1 folder_path (quality args) (format args) all_files
                t_loop w1 _ 0 Hisdir Hlisting Hne Hloop Hrate) as Hrun.
  cbn [success_count skip_count fail_count] in Hrun. rewrite Z.add_0_l in Hrun.
  unfold exit_code, script.
  rewrite (main_directory_mode _ _ _ _ _ _ Hargc Hprobe Hlist Hfile Hdir Hfolder), Hrun.
  cbn [fst snd]. split_and!.
  - reflexivity.
  - cbn [spawned]. rewrite spawned_app, Hquiet. reflexivity.
  - do 3 (apply elem_of_cons; right). apply elem_of_app. right.
    apply elem_of_cons. right. apply elem_of_cons. by left.
Qed.

Lemma main_returns_0_or_1 w argc args t w' code :
  main argc args w = (t, w', Ret code) → code = 0 ∨ code = 1.
Proof.
  unfold main. step_M.
  destruct (argc =? 1)%nat; reduce_M; [intros [= <- <- <-]; by left|].
  destruct (subprocess_run w ["ffmpeg"; "-version"]) as [[probe|e] w1]; reduce_M.
  - destruct (list_formats args).
    + destruct (list_supported_formats w1) as [[t1 w2] [[]|e]]; reduce_M;
        [intros [= <- <- <-]; by left | discriminate].
    + destruct (negb (truthy (file args)) && negb (truthy (directory args)));
        reduce_M; [intros [= <- <- <-]; by right|].
      destruct (file args) as [[|ch input]|].
      * destruct (convert_folder _ _ _ w1) as [[t1 w2] [[]|e]]; reduce_M;
          [intros [= <- <- <-]; by left | intros [= <- <- <-]; by right | discriminate].
      * destruct (convert_file _ _ _ _ w1) as [[t1 w2] [[]|e]]; reduce_M;
          [intros [= <- <- <-]; by left | intros [= <- <- <-]; by right | discriminate].
      * destruct (convert_folder _ _ _ w1) as [[t1 w2] [[]|e]]; reduce_M;
          [intros [= <- <- <-]; by left | intros [= <- <- <-]; by right | discriminate].
  - destruct (is_FileNotFoundError e); reduce_M;
      [intros [= <- <- <-]; by right | discriminate].
Qed.

(** X20. Whatever the arguments and the world, the script ends with
    status 0 or 1: [main] returns nothing else, and an exception that
    leaves [main] (the keyboard interrupt included) gives status 1. *)
Theorem exit_code_is_0_or_1 w argc args :
  exit_code argc args w = 0 ∨ exit_code argc args w = 1.
Proof.
  unfold exit_code, script.
  destruct (main argc args w) as [[t w'] [code|e]] eqn:Hmain.
  - apply (main_returns_0_or_1 _ _ _ _ _ _ Hmain).
  - right. by destruct (kind e).
Qed.

Lemma rows_of_concat num_cols : (0 < num_cols)%nat → ∀ fuel formats,
  (length formats ≤ fuel)%nat →
  concat (rows_of fuel num_cols formats) = formats
  ∧ Forall (λ row, (0 < length row ≤ num_cols)%nat) (rows_of fuel num_cols formats).
Proof.
  intros Hcols. induction fuel as [|fuel IH]; intros formats Hfuel.
  - destruct formats; [by split | cbn in Hfuel; lia].
  - destruct formats as [|x formats]; [by split|].
    cbn [rows_of].
    destruct (IH (drop num_cols (x :: formats))) as [Hconcat Hrows].
    { rewrite length_drop. cbn [length] in *. lia. }
    split.
    + cbn [concat]. rewrite Hconcat. apply take_drop.
    + constructor; [|exact Hrows].
      rewrite length_take. cbn [length]. lia.
Qed.

(** X21. Cutting a list into rows of [num_cols] entries loses and
    repeats nothing: the rows put together are the list, and every row
    has between one and [num_cols] entries. For the list-formats display
    this means that each of the twenty known formats is printed exactly
    once, in source order and without its dot, five to a row, and that no
    command is started. *)
Theorem list_supported_formats_prints_all :
  (∀ num_cols formats,
     (0 < num_cols)%nat →
     concat (rows_of (length formats) num_cols formats) = formats
     ∧ Forall (λ row, (0 < length row ≤ num_cols)%nat)
         (rows_of (length formats) num_cols formats))
  ∧ (∀ w, ∃ rows,
       list_supported_formats w
       = (Print (nl +:+ "Commonly Supported Audio Formats:")
            :: ((λ row, Print ("  " +:+ String.concat "" (PyStr.ljust 8 <$> row))) <$> rows)
            ++ [ Print (nl +:+ "Note: Actual support depends on your FFmpeg installation.");
                 Print ("For a complete list, run: ffmpeg -formats" +:+ nl) ],
          w, Ret tt)
       ∧ concat rows = PyStr.lstrip "." <$> COMMON_AUDIO_FORMATS
       ∧ Forall (λ row, length row = 5%nat) rows
       ∧ (λ name, "." +:+ name) <$> concat rows = COMMON_AUDIO_FORMATS).
Proof.
  split.
  - intros num_cols formats Hcols. by apply rows_of_concat.
  - intros w.
    exists (rows_of (length (PyStr.lstrip "." <$> COMMON_AUDIO_FORMATS)) 5
              (PyStr.lstrip "." <$> COMMON_AUDIO_FORMATS)).
    split_and!.
    + unfold list_supported_formats. step_M. rewrite emit_all_run. reduce_M.
      reflexivity.
    + apply rows_of_concat; [lia | done].
    + vm_compute. repeat constructor.
    + vm_compute. reflexivity.
Qed.

(** X22. A keyboard interrupt while the encoder runs in file mode is
    not reported as a failed conversion: after the progress marker the
    script prints only "Operation cancelled by user." and ends with
    status 1. *)
Theorem interrupt_in_file_mode w argc args probe w1 input e w2 :
  argc ≠ 1%nat →
  subprocess_run w probe_cmd = (Ret probe, w1) →
  list_formats args = false →
  file args = Some input → input ≠ "" →
  format args ≠ "" →
  os_path_isfile w1 input = true →
  let output_format := "." +:+ PyStr.lower (format args) in
  let cmd := command_for input (front_end_output args) (Some (quality args))
               output_format in
  subprocess_run w1 cmd = (Raise e, w2) →
  kind e = KeyboardInterrupt →
  script argc args w
  = (Banner :: Spawn probe_cmd
       :: announce input
            (resolve_output_file input (front_end_output args) output_format) cmd
       ++ [Print nl; Log INFO "Operation cancelled by user."],
     w2, 1).
Proof.
  intros Hargc Hprobe Hlist Hfile Hinput Hfmt Hisfile output_format cmd Hrun Hkind.
  unfold script.
  rewrite (main_file_mode _ _ _ _ _ _ Hargc Hprobe Hlist Hfile Hinput).
  rewrite (convert_file_runs _ _ _ _ _ _ Hisfile (resolve_format_override _ _ Hfmt)).
  cbn zeta. fold output_format.
  fold (command_for input (front_end_output args) (Some (quality args)) output_format).
  fold cmd. rewrite Hrun.
  unfold is_Exception. rewrite !Hkind. reflexivity.
Qed.

End FrontEndOutcomes.

(** ** The further properties at concrete inputs *)

Section MoreExamples.
Import Scripted.

(** A batch in which the first conversion fails and the second succeeds. *)
Example batch_goes_on_after_failure :
  convert_folder "in" 5 "mp3" (studio [failed; ok])
  = ([ Log INFO "Found 3 potential audio files to convert.";
       Log INFO "[1/3] (0%) Processing: x.wav";
       Log INFO "Converting: x.wav -> x.mp3";
       PrintNoNl "[PROCESSING] ";
       Spawn ["ffmpeg"; "-i"; "in/x.wav"; "-c:a"; "libmp3lame"; "-q:a"; "5"; "in/x.mp3"];
       PrintNoNl clear_line;
       Log ERROR "FFmpeg conversion failed for 'in/x.wav'";
       Log WARN "FFmpeg error details:";
       Print "  Conversion failed!";
       Log INFO "[2/3] (33%) Processing: y.flac";
       Log INFO "Converting: y.flac -> y.mp3";
       PrintNoNl "[PROCESSING] ";
       Spawn ["ffmpeg"; "-i"; "in/y.flac"; "-c:a"; "libmp3lame"; "-q:a"; "5"; "in/y.mp3"];
       PrintNoNl clear_line;
       Log SUCCESS "Successfully converted to y.mp3";
       Log INFO "[3/3] Skipping: z.mp3 (already in target format)";
       Print "";
       SummaryCounts 3 1 1 1;
       SummaryRate 50 ],
     studio [], Ret true).
Proof. vm_compute. reflexivity. Qed.

End MoreExamples.

(** X1 at a concrete input: the encoder may not be executed. *)
Lemma convert_file_contains_exceptions_witness :
  (convert_file "in/x.wav" None (Some 5) (Some "mp3")
     (Scripted.studio [Scripted.denied])).2 = Ret false.
Proof.
  rewrite (convert_file_contains_exceptions (Scripted.studio [Scripted.denied])
             "in/x.wav" None (Some 5) (Some "mp3") ".mp3"
             (Exn OtherException "[Errno 13] Permission denied: 'ffmpeg'")
             (Scripted.studio []));
    reflexivity.
Defined.



(** X3 at a concrete input. *)
Lemma convert_file_true_iff_witness :
  (convert_file "in/x.wav" None (Some 5) (Some "mp3") (Scripted.studio [Scripted.ok])).2
  = Ret true.
Proof.
  apply (convert_file_true_iff (Scripted.studio [Scripted.ok])).
  split; [reflexivity|].
  exists ".mp3", (Completed 0 "" ""), (Scripted.studio []).
  split_and!; reflexivity.
Defined.

(** X6 at a concrete input. *)
Lemma convert_file_command_shape_witness :
  ∃ name extra out,
    ["ffmpeg"; "-i"; "in/x.wav"; "-c:a"; "libopus"; "-b:a"; "128k"; "out.opus"]
    = ["ffmpeg"; "-i"; "in/x.wav"; "-c:a"; name] ++ extra ++ [out]
    ∧ (length extra = 0 ∨ length extra = 2)%nat
    ∧ (length ["ffmpeg"; "-i"; "in/x.wav"; "-c:a"; "libopus"; "-b:a"; "128k"; "out.opus"] = 6
       ∨ length ["ffmpeg"; "-i"; "in/x.wav"; "-c:a"; "libopus"; "-b:a"; "128k"; "out.opus"] = 8)%nat
    ∧ (∀ o, Some "out.opus" = Some o → out = o).
Proof.
  apply (convert_file_command_shape (Scripted.studio [Scripted.ok]) "in/x.wav"
           (Some "out.opus") (Some 5) (Some "opus")).
  vm_compute. apply elem_of_cons. by left.
Defined.

(** X7 at a concrete input: the output is returned although the command
    exited with status 1. *)
Lemma get_ffmpeg_formats_outcomes_witness :
  (get_ffmpeg_formats (Scripted.studio [Ret (Completed 1 "E mp3" "")])).2
  = Ret (Some "E mp3").
Proof.
  pose proof (get_ffmpeg_formats_outcomes
                (Scripted.studio [Ret (Completed 1 "E mp3" "")])) as Hout.
  destruct (get_ffmpeg_formats _) as [[t w'] r].
  destruct Hout as (_ & _ & Hret & _).
  apply (Hret (Completed 1 "E mp3" "")). reflexivity.
Defined.

(** X8 at a concrete input. *)
Lemma convert_folder_not_a_directory_witness :
  convert_folder "nowhere" 5 "mp3" (Scripted.studio [])
  = ([Log ERROR "The folder 'nowhere' does not exist."], Scripted.studio [], Ret false).
Proof.
  apply (convert_folder_not_a_directory (Scripted.studio []) "nowhere" 5 "mp3").
  reflexivity.
Defined.

(** X9 at a concrete input. *)
Lemma convert_folder_no_candidates_witness :
  convert_folder "docs" 5 "mp3" (Scripted.studio [])
  = ([Log WARN "No potential audio files found in 'docs'."], Scripted.studio [], Ret false).
Proof.
  apply (convert_folder_no_candidates (Scripted.studio []) "docs" 5 "mp3"
           ["notes.txt"; "README"]); reflexivity.
Defined.

(** X10 at a concrete input. *)
Lemma convert_folder_listing_error_witness :
  convert_folder "locked" 5 "mp3" (Scripted.studio [])
  = ([], Scripted.studio [],
     Raise (Exn OtherException "[Errno 13] Permission denied: 'locked'")).
Proof.
  apply (convert_folder_listing_error (Scripted.studio []) "locked" 5 "mp3");
    reflexivity.
Defined.

(** X11 at concrete inputs: an unknown extension is a candidate, a
    non-audio one in capitals is not. *)
Lemma likely_audio_iff_witness :
  likely_audio "take1.xyz" = true ∧ likely_audio "COVER.JPG" ≠ true.
Proof.
  split.
  - apply likely_audio_iff. split; [vm_compute; discriminate|].
    intros Hin. apply list_elem_of_In in Hin. vm_compute in Hin. intuition discriminate.
  - intros Hyes. apply likely_audio_iff in Hyes as [_ Hnot]. apply Hnot.
    apply list_elem_of_In. vm_compute. tauto.
Defined.

(** X12 at a concrete input: one failure, one success, one skip. *)
Lemma convert_folder_accounts_for_every_candidate_witness :
  ∃ t_loop converted skipped failed rate,
    (convert_folder "in" 5 "mp3" (Scripted.studio [Scripted.failed; Scripted.ok])).1.1
    = Log INFO "Found 3 potential audio files to convert."
      :: t_loop ++ [Print ""; SummaryCounts 3 converted skipped failed; SummaryRate rate]
    ∧ converted + skipped + failed = 3.
Proof.
  edestruct (convert_folder_accounts_for_every_candidate
               (Scripted.studio [Scripted.failed; Scripted.ok]) "in" 5 "mp3"
               ["x.wav"; "y.flac"; "z.mp3"; "notes.txt"; "README"])
    as (t_loop & converted & skipped & failed & rate & Ht & Hsum & _);
    [reflexivity | reflexivity | vm_compute; discriminate | vm_compute; reflexivity |].
  exists t_loop, converted, skipped, failed, rate.
  split; [exact Ht | exact Hsum].
Defined.

(** X14 at a concrete input. *)
Lemma convert_folder_commands_witness :
  spawned (convert_folder "in" 5 "mp3" (Scripted.studio [Scripted.failed])).1.1
  `sublist_of` [ ["ffmpeg"; "-i"; "in/x.wav"; "-c:a"; "libmp3lame"; "-q:a"; "5"; "in/x.mp3"];
                 ["ffmpeg"; "-i"; "in/y.flac"; "-c:a"; "libmp3lame"; "-q:a"; "5"; "in/y.mp3"] ].
Proof.
  apply (convert_folder_commands (Scripted.studio [Scripted.failed]) "in" 5 "mp3"
           ["x.wav"; "y.flac"; "z.mp3"; "notes.txt"; "README"]);
    [discriminate | reflexivity].
Defined.

(** X15 at a concrete input: the first conversion fails, the second is
    started all the same. *)
Lemma convert_folder_attempts_every_candidate_witness :
  spawned (convert_folder "in" 5 "mp3" (Scripted.studio [Scripted.failed; Scripted.ok])).1.1
  = [ ["ffmpeg"; "-i"; "in/x.wav"; "-c:a"; "libmp3lame"; "-q:a"; "5"; "in/x.mp3"];
      ["ffmpeg"; "-i"; "in/y.flac"; "-c:a"; "libmp3lame"; "-q:a"; "5"; "in/y.mp3"] ].
Proof.
  pose proof batch_goes_on_after_failure as Hrun.
  rewrite Hrun. cbn [fst].
  assert (∀ (w : Scripted.world) cmd p,
            os_path_isfile w p = true → os_path_isfile (subprocess_run w cmd).2 p = true)
    as Hstay.
  { intros w cmd p Hp. unfold subprocess_run, Scripted.scripted_os, Scripted.scripted_run.
    by destruct (Scripted.outcomes w). }
  eapply (convert_folder_attempts_every_candidate Hstay _ "in" 5 "mp3"
            ["x.wav"; "y.flac"; "z.mp3"; "notes.txt"; "README"]) in Hrun.
  - rewrite Hrun. vm_compute. reflexivity.
  - discriminate.
  - reflexivity.
  - reflexivity.
  - vm_compute. repeat constructor.
Defined.

(** X16 at concrete inputs: no encoder, and an interrupted probe. *)
Lemma failed_probe_ends_script_witness :
  exit_code 3 (Scripted.args_file "in/x.wav" None) (Scripted.studio []) = 1
  ∧ exit_code 3 (Scripted.args_directory "in" "mp3") (Scripted.studio [Scripted.interrupted])
    = 1.
Proof.
  split; unfold exit_code.
  - rewrite (failed_probe_ends_script (Scripted.studio []) 3
               (Scripted.args_file "in/x.wav" None)
               (Exn FileNotFoundError "[Errno 2] No such file or directory: 'ffmpeg'")
               (Scripted.studio [])); [reflexivity | lia | reflexivity].
  - rewrite (failed_probe_ends_script (Scripted.studio [Scripted.interrupted]) 3
               (Scripted.args_directory "in" "mp3") (Exn KeyboardInterrupt "")
               (Scripted.studio [])); [reflexivity | lia | reflexivity].
Defined.

(** X17 at a concrete input: an empty file name counts as no input. *)
Lemma no_input_is_refused_witness :
  exit_code 3 Scripted.args_nothing (Scripted.studio [Scripted.ok]) = 1.
Proof.
  unfold exit_code.
  rewrite (no_input_is_refused (Scripted.studio [Scripted.ok]) 3 Scripted.args_nothing
             (Completed 0 "" "") (Scripted.studio []));
    [reflexivity | lia | reflexivity..].
Defined.

(** X18 at a concrete input: an output name ending in ".mp3" with the
    default format gives a Vorbis encoding written to that name. *)
Lemma file_mode_codec_from_format_witness :
  spawned (script 5 (Scripted.args_file "in/x.wav" (Some "output.mp3"))
             (Scripted.studio [Scripted.ok; Scripted.ok])).1.1
  = [ ["ffmpeg"; "-version"];
      ["ffmpeg"; "-i"; "in/x.wav"; "-c:a"; "libvorbis"; "-q:a"; "5"; "output.mp3"] ].
Proof.
  edestruct (file_mode_codec_from_format (Scripted.studio [Scripted.ok; Scripted.ok]) 5
               (Scripted.args_file "in/x.wav" (Some "output.mp3"))
               (Completed 0 "" "") (Scripted.studio [Scripted.ok]) "in/x.wav")
    as [Hcmds _];
    [lia | reflexivity | reflexivity | reflexivity | discriminate | discriminate
    | reflexivity |].
  rewrite Hcmds. vm_compute. reflexivity.
Defined.

(** X19 at a concrete input: the directory "done" holds one MP3. *)
Lemma all_skipped_directory_exits_1_witness :
  exit_code 4 (Scripted.args_directory "done" "mp3") (Scripted.studio [Scripted.ok]) = 1.
Proof.
  edestruct (all_skipped_directory_exits_1 (Scripted.studio [Scripted.ok]) 4
               (Scripted.args_directory "done" "mp3") (Completed 0 "" "")
               (Scripted.studio []) "done" ["z.mp3"]) as [Hcode _];
    [lia | reflexivity | reflexivity | reflexivity | reflexivity | discriminate
    | reflexivity | reflexivity | vm_compute; discriminate | vm_compute; reflexivity |].
  exact Hcode.
Defined.

(** X21 at a concrete input: seven names in rows of three. *)
Lemma list_supported_formats_prints_all_witness :
  concat (rows_of 7 3 ["a"; "b"; "c"; "d"; "e"; "f"; "g"])
  = ["a"; "b"; "c"; "d"; "e"; "f"; "g"].
Proof.
  destruct (list_supported_formats_prints_all (W := Demo.world)) as [Hrows _].
  apply (Hrows 3%nat ["a"; "b"; "c"; "d"; "e"; "f"; "g"]). lia.
Defined.

(** X22 at a concrete input: the conversion is interrupted. *)
Lemma interrupt_in_file_mode_witness :
  script 3 (Scripted.args_file "in/x.wav" None)
    (Scripted.studio [Scripted.ok; Scripted.interrupted])
  = ([ Banner; Spawn ["ffmpeg"; "-version"];
       Log INFO "Converting: x.wav -> x.ogg";
       PrintNoNl "[PROCESSING] ";
       Spawn ["ffmpeg"; "-i"; "in/x.wav"; "-c:a"; "libvorbis"; "-q:a"; "5"; "in/x.ogg"];
       Print nl; Log INFO "Operation cancelled by user." ],
     Scripted.studio [], 1).
Proof.
  rewrite (interrupt_in_file_mode (Scripted.studio [Scripted.ok; Scripted.interrupted]) 3
             (Scripted.args_file "in/x.wav" None) (Completed 0 "" "")
             (Scripted.studio [Scripted.interrupted]) "in/x.wav"
             (Exn KeyboardInterrupt "") (Scripted.studio []));
    [vm_compute; reflexivity | lia | reflexivity | reflexivity | reflexivity
    | discriminate | discriminate | reflexivity | reflexivity | reflexivity ].
Defined.
